(** * StyleMix Studio: the upload intake, the Gemini service layer and the
      request handlers of the [App] component, embedded from the TypeScript
      sources, with the properties of the specification that concern them.

    Layout of the sources: [types.ts] (the [UploadedFile], [AppTab] and
    [AspectRatio] types), [App.tsx] (view state and handlers),
    [services/geminiService.ts] (payload encoding and the three upstream
    calls), [components/FileUpload.tsx] (the picker widget). *)

From Stdlib Require Import Ascii String.
From stdpp Require Import base option list strings pretty gmap.

Local Open Scope string_scope.
Local Open Scope list_scope.

(** ** Data model *)

(** A browser [File], as far as the program observes it: its [name], its
    declared media [type], and what a [FileReader] holds in [reader.result]
    when [readAsDataURL] reaches [loadend]: [Some url] for a data URL,
    [None] when the read failed and the result is [null]. *)
Module File.
Record t : Type := mk { name : string; type : string; dataURL : option string }.
End File.

(** An object URL minted by [URL.createObjectURL]: the browser hands out a
    fresh one per call; the n-th one is represented by [n]. *)
Definition ObjectURL : Type := nat.

(** [types.ts]: [interface UploadedFile { id; file; preview }]. *)
Module UploadedFile.
Record t : Type := mk { id : string; file : File.t; preview : ObjectURL }.
End UploadedFile.

(** [types.ts]: [type AppTab = 'tryon' | 'generate' | 'edit']. *)
Inductive AppTab : Type := tryon | generate | edit.

(** [types.ts]: [type AspectRatio = "1:1" | "3:4" | "4:3" | "9:16" | "16:9"]. *)
Inductive AspectRatio : Type := ar_1_1 | ar_3_4 | ar_4_3 | ar_9_16 | ar_16_9.

Global Instance AppTab_eq_dec : EqDecision AppTab.
Proof. solve_decision. Defined.
Global Instance AspectRatio_eq_dec : EqDecision AspectRatio.
Proof. solve_decision. Defined.

(** The [useState] cells of [App], one field per cell, in source order.
    [generatedImage] and [error] are [string | null]. *)
Record AppState : Type := mkAppState {
  activeTab : AppTab;
  itemImages : list UploadedFile.t;
  userImage : option UploadedFile.t;
  sceneDescription : string;
  useThinkingMode : bool;
  generatePrompt : string;
  aspectRatio : AspectRatio;
  editPrompt : string;
  generatedImage : option string;
  analysisResult : string;
  isLoading : bool;
  error : option string;
  isZoomModalOpen : bool
}.

(** [useState<...>(initial)] for every cell. *)
Definition initialState : AppState :=
  {| activeTab := tryon; itemImages := []; userImage := None;
     sceneDescription := ""; useThinkingMode := false;
     generatePrompt := ""; aspectRatio := ar_1_1; editPrompt := "";
     generatedImage := None; analysisResult := ""; isLoading := false;
     error := None; isZoomModalOpen := false |}.

(** The state setters returned by [useState]. Each replaces one cell. *)
Section Setters.
Variable s : AppState.

Definition setActiveTab (v : AppTab) : AppState :=
  mkAppState v (itemImages s) (userImage s) (sceneDescription s)
    (useThinkingMode s) (generatePrompt s) (aspectRatio s) (editPrompt s)
    (generatedImage s) (analysisResult s) (isLoading s) (error s)
    (isZoomModalOpen s).

(** [setItemImages] is only ever called with an updater [prev => ...]
    or a constant; the updater form covers both. *)
Definition setItemImages (u : list UploadedFile.t -> list UploadedFile.t) : AppState :=
  mkAppState (activeTab s) (u (itemImages s)) (userImage s) (sceneDescription s)
    (useThinkingMode s) (generatePrompt s) (aspectRatio s) (editPrompt s)
    (generatedImage s) (analysisResult s) (isLoading s) (error s)
    (isZoomModalOpen s).

Definition setUserImage (v : option UploadedFile.t) : AppState :=
  mkAppState (activeTab s) (itemImages s) v (sceneDescription s)
    (useThinkingMode s) (generatePrompt s) (aspectRatio s) (editPrompt s)
    (generatedImage s) (analysisResult s) (isLoading s) (error s)
    (isZoomModalOpen s).

Definition setSceneDescription (v : string) : AppState :=
  mkAppState (activeTab s) (itemImages s) (userImage s) v
    (useThinkingMode s) (generatePrompt s) (aspectRatio s) (editPrompt s)
    (generatedImage s) (analysisResult s) (isLoading s) (error s)
    (isZoomModalOpen s).

Definition setUseThinkingMode (v : bool) : AppState :=
  mkAppState (activeTab s) (itemImages s) (userImage s) (sceneDescription s)
    v (generatePrompt s) (aspectRatio s) (editPrompt s)
    (generatedImage s) (analysisResult s) (isLoading s) (error s)
    (isZoomModalOpen s).

Definition setGeneratePrompt (v : string) : AppState :=
  mkAppState (activeTab s) (itemImages s) (userImage s) (sceneDescription s)
    (useThinkingMode s) v (aspectRatio s) (editPrompt s)
    (generatedImage s) (analysisResult s) (isLoading s) (error s)
    (isZoomModalOpen s).

Definition setAspectRatio (v : AspectRatio) : AppState :=
  mkAppState (activeTab s) (itemImages s) (userImage s) (sceneDescription s)
    (useThinkingMode s) (generatePrompt s) v (editPrompt s)
    (generatedImage s) (analysisResult s) (isLoading s) (error s)
    (isZoomModalOpen s).

Definition setEditPrompt (v : string) : AppState :=
  mkAppState (activeTab s) (itemImages s) (userImage s) (sceneDescription s)
    (useThinkingMode s) (generatePrompt s) (aspectRatio s) v
    (generatedImage s) (analysisResult s) (isLoading s) (error s)
    (isZoomModalOpen s).

Definition setGeneratedImage (v : option string) : AppState :=
  mkAppState (activeTab s) (itemImages s) (userImage s) (sceneDescription s)
    (useThinkingMode s) (generatePrompt s) (aspectRatio s) (editPrompt s)
    v (analysisResult s) (isLoading s) (error s)
    (isZoomModalOpen s).

Definition setAnalysisResult (v : string) : AppState :=
  mkAppState (activeTab s) (itemImages s) (userImage s) (sceneDescription s)
    (useThinkingMode s) (generatePrompt s) (aspectRatio s) (editPrompt s)
    (generatedImage s) v (isLoading s) (error s)
    (isZoomModalOpen s).

Definition setIsLoading (v : bool) : AppState :=
  mkAppState (activeTab s) (itemImages s) (userImage s) (sceneDescription s)
    (useThinkingMode s) (generatePrompt s) (aspectRatio s) (editPrompt s)
    (generatedImage s) (analysisResult s) v (error s)
    (isZoomModalOpen s).

Definition setError (v : option string) : AppState :=
  mkAppState (activeTab s) (itemImages s) (userImage s) (sceneDescription s)
    (useThinkingMode s) (generatePrompt s) (aspectRatio s) (editPrompt s)
    (generatedImage s) (analysisResult s) (isLoading s) v
    (isZoomModalOpen s).

Definition setIsZoomModalOpen (v : bool) : AppState :=
  mkAppState (activeTab s) (itemImages s) (userImage s) (sceneDescription s)
    (useThinkingMode s) (generatePrompt s) (aspectRatio s) (editPrompt s)
    (generatedImage s) (analysisResult s) (isLoading s) (error s)
    v.
End Setters.

(** JavaScript truthiness of the values the handlers test with [!x]:
    a string is falsy exactly when it is empty, [null] is falsy. *)
Definition truthy (v : string) : bool :=
  match v with EmptyString => false | String _ _ => true end.

Definition truthy_opt (v : option string) : bool :=
  match v with None => false | Some x => truthy x end.

(** ** The browser: clock and object-URL registry *)

(** What the upload handlers touch outside React state. [clock k] is the
    value of the k-th [Date.now()] call of the session and [clockReads]
    counts the calls made so far; [nextURL] is the next object URL that
    [URL.createObjectURL] mints and [liveURLs] the set of URLs minted and
    not yet revoked with [URL.revokeObjectURL]. *)
Record Browser : Type := mkBrowser {
  clock : nat -> N;
  clockReads : nat;
  nextURL : ObjectURL;
  liveURLs : gset ObjectURL
}.

(** [Date.now()]. *)
Definition Date_now (b : Browser) : N * Browser :=
  (clock b (clockReads b),
   mkBrowser (clock b) (S (clockReads b)) (nextURL b) (liveURLs b)).

(** [URL.createObjectURL(file)]: mints a URL and keeps it alive. *)
Definition createObjectURL (f : File.t) (b : Browser) : ObjectURL * Browser :=
  (nextURL b,
   mkBrowser (clock b) (clockReads b) (S (nextURL b)) ({[nextURL b]} ∪ liveURLs b)).

(** [URL.revokeObjectURL(url)], the browser's only way to release an object
    URL. No source file calls it. *)
Definition revokeObjectURL (u : ObjectURL) (b : Browser) : Browser :=
  mkBrowser (clock b) (clockReads b) (nextURL b) (liveURLs b ∖ {[u]}).

(** ** Upload intake ([App.tsx]) *)

(** The object literal
    [{ id: `${file.name}-${Date.now()}`, file, preview: URL.createObjectURL(file) }],
    its properties evaluated in order. *)
Definition makeUploadedFile (f : File.t) (b : Browser) : UploadedFile.t * Browser :=
  let '(now, b1) := Date_now b in
  let '(url, b2) := createObjectURL f b1 in
  (UploadedFile.mk (File.name f +:+ "-" +:+ pretty now) f url, b2).

(** [files.map(file => ({...}))], left to right. *)
Fixpoint mapUploadedFiles (files : list File.t) (b : Browser)
  : list UploadedFile.t * Browser :=
  match files with
  | [] => ([], b)
  | f :: rest =>
      let '(u, b1) := makeUploadedFile f b in
      let '(us, b2) := mapUploadedFiles rest b1 in
      (u :: us, b2)
  end.

(** [handleItemFiles]: [setItemImages(prev => [...prev, ...newUploadedFiles])]. *)
Definition handleItemFiles (files : list File.t) (w : AppState * Browser)
  : AppState * Browser :=
  let '(newUploadedFiles, b') := mapUploadedFiles files w.2 in
  (setItemImages w.1 (fun prev => prev ++ newUploadedFiles), b').

(** [handleUserFile]: only [files[0]] is read, and only when
    [files.length > 0]. *)
Definition handleUserFile (files : list File.t) (w : AppState * Browser)
  : AppState * Browser :=
  match files with
  | f0 :: _ =>
      let '(u, b') := makeUploadedFile f0 w.2 in
      (setUserImage w.1 (Some u), b')
  | [] => w
  end.

(** [removeItem]: [setItemImages(prev => prev.filter(item => item.id !== id))].
    The browser is not touched. *)
Definition removeItem (id : string) (w : AppState * Browser) : AppState * Browser :=
  (setItemImages w.1 (fun prev => filter (fun item => UploadedFile.id item ≠ id) prev), w.2).

(** ** The upstream service as the program sees it ([@google/genai]) *)

(** A part of a request: [{ text }] or [{ inlineData: { data, mimeType } }].
    [data] is [None] when the JavaScript value is [undefined], which is what
    [split(',')[1]] gives on a string without a comma. *)
Inductive Part : Type :=
| TextPart (text : string)
| InlineDataPart (data : option string) (mimeType : string).

(** [inlineData] of a part of a response, at its declared type. *)
Module Blob.
Record t : Type := mk { data : string; mimeType : string }.
End Blob.

(** A part of a response; the program only looks at [part.inlineData]. *)
Module ResponsePart.
Record t : Type := mk { inlineData : option Blob.t }.
End ResponsePart.

(** What [generateContent] resolves to. A candidate is given by its
    [content.parts]; [text] is the [response.text] accessor. *)
Module GenerateContentResponse.
Record t : Type := mk { candidates : list (list ResponsePart.t); text : string }.
End GenerateContentResponse.

(** What [generateImages] resolves to: [image.imageBytes] of each entry of
    [generatedImages]. *)
Module GenerateImagesResponse.
Record t : Type := mk { generatedImages : list string }.
End GenerateImagesResponse.

(** [Modality] of the SDK, as far as it is used. *)
Inductive Modality : Type := IMAGE.

(** The [config] objects the program passes to [generateContent]. *)
Inductive Config : Type :=
| responseModalities (ms : list Modality)
| thinkingConfig (thinkingBudget : N).

(** The two SDK calls, with everything the program puts in them. *)
Inductive Request : Type :=
| generateContent (model : string) (parts : list Part) (config : Config)
| generateImages (model : string) (prompt : string) (numberOfImages : N)
    (ratio : AspectRatio) (outputMimeType : string).

(** A thrown JavaScript value: an [Error] instance with its [message], or
    anything else ([e instanceof Error] is what the handlers test). *)
Inductive Thrown : Type :=
| ErrorObject (message : string)
| OtherValue.

(** The service: for each request, whether the promise rejects (and with
    what) or resolves (and to what). *)
Record Upstream : Type := mkUpstream {
  onGenerateContent : string -> list Part -> Config -> Thrown + GenerateContentResponse.t;
  onGenerateImages : string -> string -> N -> AspectRatio -> string
                     -> Thrown + GenerateImagesResponse.t
}.

(** ** Asynchronous computations *)

(** An [async] function body as a tree: it returns, throws, calls a state
    setter, or awaits one of the two SDK calls and continues with the
    settled promise. *)
Inductive Async (A : Type) : Type :=
| Ret (a : A)
| Throw (e : Thrown)
| SetState (u : AppState -> AppState) (k : Async A)
| AwaitContent (model : string) (parts : list Part) (config : Config)
    (k : Thrown + GenerateContentResponse.t -> Async A)
| AwaitImages (model : string) (prompt : string) (numberOfImages : N)
    (ratio : AspectRatio) (outputMimeType : string)
    (k : Thrown + GenerateImagesResponse.t -> Async A).
Arguments Ret {A} a.
Arguments Throw {A} e.
Arguments SetState {A} u k.
Arguments AwaitContent {A} model parts config k.
Arguments AwaitImages {A} model prompt numberOfImages ratio outputMimeType k.

Fixpoint Async_bind {A B} (f : A -> Async B) (m : Async A) : Async B :=
  match m with
  | Ret a => f a
  | Throw e => Throw e
  | SetState u k => SetState u (Async_bind f k)
  | AwaitContent md ps c k => AwaitContent md ps c (fun r => Async_bind f (k r))
  | AwaitImages md p n a o k => AwaitImages md p n a o (fun r => Async_bind f (k r))
  end.

Global Instance Async_mret : MRet Async := fun A a => Ret a.
Global Instance Async_mbind : MBind Async := fun A B f m => Async_bind f m.

(** [try { body } catch (e) { handler }]. *)
Fixpoint try_catch {A} (body : Async A) (handler : Thrown -> Async A) : Async A :=
  match body with
  | Ret a => Ret a
  | Throw e => handler e
  | SetState u k => SetState u (try_catch k handler)
  | AwaitContent md ps c k => AwaitContent md ps c (fun r => try_catch (k r) handler)
  | AwaitImages md p n a o k => AwaitImages md p n a o (fun r => try_catch (k r) handler)
  end.

(** [try { body } finally { fin }]: [fin] runs on both exits and the exit
    of [body] is kept (no [fin] of the program returns or throws). *)
Fixpoint try_finally {A} (body : Async A) (fin : Async unit) : Async A :=
  match body with
  | Ret a => Async_bind (fun _ => Ret a) fin
  | Throw e => Async_bind (fun _ => Throw e) fin
  | SetState u k => SetState u (try_finally k fin)
  | AwaitContent md ps c k => AwaitContent md ps c (fun r => try_finally (k r) fin)
  | AwaitImages md p n a o k => AwaitImages md p n a o (fun r => try_finally (k r) fin)
  end.

(** A bare call of a state setter. *)
Definition call (u : AppState -> AppState) : Async unit := SetState u (Ret tt).

(** [await ai.models.generateContent({...})]: a rejection is thrown at the
    [await]. *)
Definition ai_models_generateContent (model : string) (parts : list Part) (config : Config)
  : Async GenerateContentResponse.t :=
  AwaitContent model parts config
    (fun r => match r with inl e => Throw e | inr resp => Ret resp end).

(** [await ai.models.generateImages({...})]. *)
Definition ai_models_generateImages (model prompt : string) (numberOfImages : N)
    (ratio : AspectRatio) (outputMimeType : string)
  : Async GenerateImagesResponse.t :=
  AwaitImages model prompt numberOfImages ratio outputMimeType
    (fun r => match r with inl e => Throw e | inr resp => Ret resp end).

(** [await Promise.all(ps)]: the results in order, or the first rejection. *)
Fixpoint Promise_all {A} (ps : list (Async A)) : Async (list A) :=
  match ps with
  | [] => Ret []
  | p :: rest => x ← p; xs ← Promise_all rest; Ret (x :: xs)
  end.

(** Running a computation against a service from a state: how it ended
    ([inl e]: an uncaught throw), the state after the setter calls, and the
    requests issued, oldest first. *)
Fixpoint run {A} (p : Async A) (ai : Upstream) (s : AppState)
  : (Thrown + A) * AppState * list Request :=
  match p with
  | Ret a => (inr a, s, [])
  | Throw e => (inl e, s, [])
  | SetState u k => run k ai (u s)
  | AwaitContent md ps c k =>
      let '(r, s', t) := run (k (onGenerateContent ai md ps c)) ai s in
      (r, s', generateContent md ps c :: t)
  | AwaitImages md p n a o k =>
      let '(r, s', t) := run (k (onGenerateImages ai md p n a o)) ai s in
      (r, s', generateImages md p n a o :: t)
  end.

Definition outcome {A} (x : (Thrown + A) * AppState * list Request) : Thrown + A := x.1.1.
Definition finalState {A} (x : (Thrown + A) * AppState * list Request) : AppState := x.1.2.
Definition requests {A} (x : (Thrown + A) * AppState * list Request) : list Request := x.2.

(** ** Payload encoding and the upstream calls ([services/geminiService.ts]) *)

(** [s.split(c)] of JavaScript for a one-character separator: never empty,
    one more piece than there are separators. *)
Fixpoint split (c : ascii) (s : string) : list string :=
  match s with
  | EmptyString => [EmptyString]
  | String a rest =>
      if Ascii.eqb a c then EmptyString :: split c rest
      else match split c rest with
           | piece :: pieces => String a piece :: pieces
           | [] => [String a EmptyString]
           end
  end.

(** [fileToGenerativePart]. The promise is built with [resolve] only: when
    [reader.result] is a string the part carries [result.split(',')[1]],
    otherwise it carries the empty string. Nothing rejects. *)
Definition fileToGenerativePart (file : File.t) : Async Part :=
  let base64EncodedData :=
    match File.dataURL file with
    | Some result => split "," result !! 1%nat
    | None => Some EmptyString
    end in
  Ret (InlineDataPart base64EncodedData (File.type file)).

(** [base64ToGenerativePart(base64Data, mimeType = 'image/jpeg')]; the
    default is taken when the second argument is left out. *)
Definition base64ToGenerativePart (base64Data : string) (mimeType : option string) : Part :=
  InlineDataPart (Some base64Data) (default "image/jpeg" mimeType).

(** The double-quote character of the prompt templates. *)
Definition dquote : string := String "034"%char EmptyString.

(** [x[0].p] on an empty array: reading a property of [undefined] raises a
    [TypeError], an [Error] instance whose message names the property. *)
Definition TypeError_reading (property : string) : Thrown :=
  ErrorObject ("Cannot read properties of undefined (reading '" +:+ property +:+ "')").

(** [response.candidates[0].content.parts]. *)
Definition candidates0_parts (response : GenerateContentResponse.t)
  : Async (list ResponsePart.t) :=
  match GenerateContentResponse.candidates response with
  | parts :: _ => Ret parts
  | [] => Throw (TypeError_reading "content")
  end.

(** The loop [for (const part of parts) if (part.inlineData) return
    part.inlineData.data;]: the data of the first part that has inline data,
    [None] when the loop falls through. *)
Fixpoint firstInlineData (parts : list ResponsePart.t) : option string :=
  match parts with
  | [] => None
  | part :: rest =>
      match ResponsePart.inlineData part with
      | Some blob => Some (Blob.data blob)
      | None => firstInlineData rest
      end
  end.

(** The loop followed by [throw new Error(message)]. *)
Definition returnFirstInlineData (parts : list ResponsePart.t) (message : string)
  : Async string :=
  match firstInlineData parts with
  | Some d => Ret d
  | None => Throw (ErrorObject message)
  end.

(** [generateLook]. *)
Definition generateLook (itemImages : list File.t) (userImage : option File.t)
    (sceneDescription : string) : Async string :=
  let model := "gemini-2.5-flash-image" in
  itemImageParts ← Promise_all (map fileToGenerativePart itemImages);
  let textPrompt :=
    "Generate a photorealistic image of a person in the following scene: "
      +:+ dquote +:+ sceneDescription +:+ dquote +:+ ". " in
  '(textPrompt, promptParts) ←
    match userImage with
    | Some userImage =>
        userImagePart ← fileToGenerativePart userImage;
        Ret (textPrompt +:+ "The person in the image should be the person from the provided user photo, wearing the following items. Blend the items naturally onto the person.",
             [userImagePart])
    | None =>
        Ret (textPrompt +:+ "The person should be an AI-generated model, wearing the following items. The items should look natural on the model.",
             [])
    end;
  let promptParts := TextPart textPrompt :: promptParts in
  let promptParts := promptParts ++ itemImageParts in
  response ← ai_models_generateContent model promptParts (responseModalities [IMAGE]);
  parts ← candidates0_parts response;
  returnFirstInlineData parts "No image was generated.".

(** [analyzeLookWithThinking]. *)
Definition analyzeLookWithThinking (imageBase64 sceneDescription : string) : Async string :=
  let model := "gemini-2.5-pro" in
  let imagePart := base64ToGenerativePart imageBase64 (Some "image/jpeg") in
  let textPart := TextPart
    ("You are a world-class fashion stylist. Provide a detailed, professional fashion analysis of the outfit shown in the image, considering the described scene: "
       +:+ dquote +:+ sceneDescription +:+ dquote
       +:+ ". Focus on style, color coordination, suitability for the occasion, and suggest potential improvements or alternative accessories.") in
  response ← ai_models_generateContent model [textPart; imagePart] (thinkingConfig 8192);
  Ret (GenerateContentResponse.text response).

(** [editImage]. *)
Definition editImage (imageBase64 editPrompt : string) : Async string :=
  let model := "gemini-2.5-flash-image" in
  let imagePart := base64ToGenerativePart imageBase64 (Some "image/jpeg") in
  let textPart := TextPart editPrompt in
  response ← ai_models_generateContent model [imagePart; textPart] (responseModalities [IMAGE]);
  parts ← candidates0_parts response;
  returnFirstInlineData parts "Could not edit the image.".

(** [generateImageFromText]. *)
Definition generateImageFromText (prompt : string) (aspectRatio : AspectRatio) : Async string :=
  let model := "imagen-4.0-generate-001" in
  response ← ai_models_generateImages model prompt 1 aspectRatio "image/jpeg";
  match GenerateImagesResponse.generatedImages response with
  | base64ImageBytes :: _ =>
      if negb (truthy base64ImageBytes) then Throw (ErrorObject "Image generation failed.")
      else Ret base64ImageBytes
  | [] => Throw (TypeError_reading "image")
  end.

(** ** Request handlers ([App.tsx]) *)

(** [e instanceof Error ? e.message : 'An unknown error occurred.'] *)
Definition errorMessage (e : Thrown) : string :=
  match e with
  | ErrorObject message => message
  | OtherValue => "An unknown error occurred."
  end.

(** The [catch (e) { console.error(e); setError(...) }] block shared by the
    three submit handlers. *)
Definition catchBlock (e : Thrown) : Async unit :=
  call (fun s => setError s (Some (errorMessage e))).

(** The [finally { setIsLoading(false) }] block shared by the three submit
    handlers. *)
Definition finallyBlock : Async unit :=
  call (fun s => setIsLoading s false).

(** [handleGenerateLook]. The argument [c] is the render the handler closes
    over: every cell read in the body is read from [c]. *)
Definition handleGenerateLook (c : AppState) : Async unit :=
  if (length (itemImages c) =? 0)%nat || negb (truthy (sceneDescription c)) then
    call (fun s => setError s (Some "Please upload at least one item and describe the scene."))
  else
    call (fun s => setIsLoading s true);;
    call (fun s => setError s None);;
    call (fun s => setGeneratedImage s None);;
    call (fun s => setAnalysisResult s "");;
    try_finally
      (try_catch
         (imageBase64 ← generateLook
                          (map UploadedFile.file (itemImages c))
                          (UploadedFile.file <$> userImage c)
                          (sceneDescription c);
          call (fun s => setGeneratedImage s (Some imageBase64));;
          if useThinkingMode c then
            analysis ← analyzeLookWithThinking imageBase64 (sceneDescription c);
            call (fun s => setAnalysisResult s analysis)
          else Ret tt)
         catchBlock)
      finallyBlock.

(** [handleGenerateImage]. *)
Definition handleGenerateImage (c : AppState) : Async unit :=
  if negb (truthy (generatePrompt c)) then
    call (fun s => setError s (Some "Please enter a prompt to generate an image."))
  else
    call (fun s => setIsLoading s true);;
    call (fun s => setError s None);;
    call (fun s => setGeneratedImage s None);;
    call (fun s => setAnalysisResult s "");;
    try_finally
      (try_catch
         (imageBase64 ← generateImageFromText (generatePrompt c) (aspectRatio c);
          call (fun s => setGeneratedImage s (Some imageBase64)))
         catchBlock)
      finallyBlock.

(** [handleEditImage]. Past the guard [generatedImage] is a non-empty
    string, which is what [editImage] receives. *)
Definition handleEditImage (c : AppState) : Async unit :=
  if negb (truthy_opt (generatedImage c)) || negb (truthy (editPrompt c)) then
    call (fun s => setError s (Some "Please generate an image first and enter an edit prompt."))
  else
    call (fun s => setIsLoading s true);;
    call (fun s => setError s None);;
    try_finally
      (try_catch
         (imageBase64 ← editImage (default "" (generatedImage c)) (editPrompt c);
          call (fun s => setGeneratedImage s (Some imageBase64));;
          call (fun s => setEditPrompt s ""))
         catchBlock)
      finallyBlock.

(** [resetTryOn] and [resetGenerate]. *)
Definition resetTryOn (s : AppState) : AppState :=
  setUseThinkingMode
    (setError
       (setAnalysisResult
          (setGeneratedImage
             (setSceneDescription
                (setUserImage (setItemImages s (fun _ => [])) None) "") None) "") None) false.

Definition resetGenerate (s : AppState) : AppState :=
  setError (setGeneratedImage (setAspectRatio (setGeneratePrompt s "") ar_1_1) None) None.

(** ** The submit buttons and the output area ([App.tsx], the JSX) *)

(** The three buttons whose [onClick] is a submit handler. *)
Inductive SubmitButton : Type := GenerateMyLook | GenerateImage | ApplyEdit.

(** Whether the button is in the rendered tree: [renderTryOnInputs] and
    [renderGenerateInputs] are shown for their tab, the edit controls under
    [activeTab === 'edit' && generatedImage]. *)
Definition rendered (b : SubmitButton) (c : AppState) : bool :=
  match b with
  | GenerateMyLook => bool_decide (activeTab c = tryon)
  | GenerateImage => bool_decide (activeTab c = generate)
  | ApplyEdit => bool_decide (activeTab c = edit) && truthy_opt (generatedImage c)
  end.

(** The [disabled] attribute: [disabled={isLoading}] on "Generate My
    Look" and on "Apply Edit"; the "Generate Image" button has none. *)
Definition disabled (b : SubmitButton) (c : AppState) : bool :=
  match b with
  | GenerateMyLook => isLoading c
  | GenerateImage => false
  | ApplyEdit => isLoading c
  end.

(** The [onClick] attribute. *)
Definition onClick (b : SubmitButton) : AppState -> Async unit :=
  match b with
  | GenerateMyLook => handleGenerateLook
  | GenerateImage => handleGenerateImage
  | ApplyEdit => handleEditImage
  end.

(** A user click on a submit button of render [c]: the browser dispatches
    [onClick] only for a button that is rendered and not disabled. *)
Definition click (b : SubmitButton) (c : AppState) : Async unit :=
  if rendered b c && negb (disabled b c) then onClick b c else Ret tt.

(** A handler or click invoked on the current render: it closes over the
    state it then starts to update. *)
Definition invoke (h : AppState -> Async unit) (ai : Upstream) (s : AppState)
  : (Thrown + unit) * AppState * list Request :=
  run (h s) ai s.

(** What the square of [renderOutputArea] shows. *)
Inductive OutputPanel : Type :=
| LoadingSpinner
| ErrorPanel (message : string)
| Placeholder
| GeneratedImagePanel (image : string).

(** The four conditional children of the output square, in source order:
    [isLoading && ...], [!isLoading && error && ...],
    [!isLoading && !error && !generatedImage && ...], [generatedImage && ...]. *)
Definition renderOutputArea (c : AppState) : list OutputPanel :=
  (if isLoading c then [LoadingSpinner] else [])
  ++ (if negb (isLoading c) && truthy_opt (error c)
      then [ErrorPanel (default "" (error c))] else [])
  ++ (if negb (isLoading c) && negb (truthy_opt (error c))
         && negb (truthy_opt (generatedImage c))
      then [Placeholder] else [])
  ++ (if truthy_opt (generatedImage c)
      then [GeneratedImagePanel (default "" (generatedImage c))] else []).

(** The request status of the specification, read off the cells the way
    the output area reports them: in flight while [isLoading]; failed, with
    the message, when an error is shown; succeeded when an image is held and
    no error is shown; idle otherwise. *)
Inductive RequestStatus : Type :=
| Idle
| Submitting
| Succeeded
| Failed (reason : string).

Definition requestStatus (c : AppState) : RequestStatus :=
  if isLoading c then Submitting
  else if truthy_opt (error c) then Failed (default "" (error c))
  else if truthy_opt (generatedImage c) then Succeeded
  else Idle.

(** ** Descriptions used to state the properties *)

(** The part [fileToGenerativePart] resolves to. *)
Definition encodedPart (file : File.t) : Part :=
  InlineDataPart
    (match File.dataURL file with
     | Some result => split "," result !! 1%nat
     | None => Some EmptyString
     end)
    (File.type file).

(** The text of the try-on prompt. *)
Definition lookPrompt (withUser : bool) (sceneDescription : string) : string :=
  ("Generate a photorealistic image of a person in the following scene: "
     +:+ dquote +:+ sceneDescription +:+ dquote +:+ ". ")
  +:+ (if withUser
       then "The person in the image should be the person from the provided user photo, wearing the following items. Blend the items naturally onto the person."
       else "The person should be an AI-generated model, wearing the following items. The items should look natural on the model.").

(** The request [generateLook] issues: the prompt, then the user photo if
    any, then the items; and the service's answer to it. *)
Definition lookParts (items : list File.t) (user : option File.t) (scene : string)
  : list Part :=
  TextPart (lookPrompt (bool_decide (is_Some user)) scene)
    :: option_list (encodedPart <$> user) ++ map encodedPart items.

Definition lookRequest (items : list File.t) (user : option File.t) (scene : string)
  : Request :=
  generateContent "gemini-2.5-flash-image" (lookParts items user scene)
    (responseModalities [IMAGE]).

Definition lookReply (ai : Upstream) (items : list File.t) (user : option File.t)
    (scene : string) : Thrown + GenerateContentResponse.t :=
  onGenerateContent ai "gemini-2.5-flash-image" (lookParts items user scene)
    (responseModalities [IMAGE]).

(** The request [editImage] issues, and the service's answer to it. *)
Definition editParts (imageBase64 editPrompt : string) : list Part :=
  [InlineDataPart (Some imageBase64) "image/jpeg"; TextPart editPrompt].

Definition editRequest (imageBase64 editPrompt : string) : Request :=
  generateContent "gemini-2.5-flash-image" (editParts imageBase64 editPrompt)
    (responseModalities [IMAGE]).

Definition editReply (ai : Upstream) (imageBase64 editPrompt : string)
  : Thrown + GenerateContentResponse.t :=
  onGenerateContent ai "gemini-2.5-flash-image" (editParts imageBase64 editPrompt)
    (responseModalities [IMAGE]).

(** The request [analyzeLookWithThinking] issues, and the service's answer
    to it. *)
Definition analysisParts (imageBase64 scene : string) : list Part :=
  [TextPart
     ("You are a world-class fashion stylist. Provide a detailed, professional fashion analysis of the outfit shown in the image, considering the described scene: "
        +:+ dquote +:+ scene +:+ dquote
        +:+ ". Focus on style, color coordination, suitability for the occasion, and suggest potential improvements or alternative accessories.");
   InlineDataPart (Some imageBase64) "image/jpeg"].

Definition analysisRequest (imageBase64 scene : string) : Request :=
  generateContent "gemini-2.5-pro" (analysisParts imageBase64 scene) (thinkingConfig 8192).

Definition analysisReply (ai : Upstream) (imageBase64 scene : string)
  : Thrown + GenerateContentResponse.t :=
  onGenerateContent ai "gemini-2.5-pro" (analysisParts imageBase64 scene) (thinkingConfig 8192).

(** The request [generateImageFromText] issues, and the service's answer. *)
Definition imageRequest (prompt : string) (ratio : AspectRatio) : Request :=
  generateImages "imagen-4.0-generate-001" prompt 1 ratio "image/jpeg".

Definition imageReply (ai : Upstream) (prompt : string) (ratio : AspectRatio)
  : Thrown + GenerateImagesResponse.t :=
  onGenerateImages ai "imagen-4.0-generate-001" prompt 1 ratio "image/jpeg".

(** What [generateLook] and [editImage] make of the settled promise: the
    rejection, a [TypeError] when there is no first candidate, the data of
    the first inline part, or the function's own error. *)
Definition imageOf (message : string) (reply : Thrown + GenerateContentResponse.t)
  : Thrown + string :=
  match reply with
  | inl e => inl e
  | inr response =>
      match GenerateContentResponse.candidates response with
      | [] => inl (TypeError_reading "content")
      | parts :: _ =>
          match firstInlineData parts with
          | Some d => inr d
          | None => inl (ErrorObject message)
          end
      end
  end.

(** What [generateImageFromText] makes of the settled promise. *)
Definition imageBytesOf (reply : Thrown + GenerateImagesResponse.t) : Thrown + string :=
  match reply with
  | inl e => inl e
  | inr response =>
      match GenerateImagesResponse.generatedImages response with
      | [] => inl (TypeError_reading "image")
      | bytes :: _ =>
          if truthy bytes then inr bytes else inl (ErrorObject "Image generation failed.")
      end
  end.

(** The required-field guards, as the handlers evaluate them. *)
Definition lookGuardFails (c : AppState) : bool :=
  (length (itemImages c) =? 0)%nat || negb (truthy (sceneDescription c)).

Definition imageGuardFails (c : AppState) : bool :=
  negb (truthy (generatePrompt c)).

Definition editGuardFails (c : AppState) : bool :=
  negb (truthy_opt (generatedImage c)) || negb (truthy (editPrompt c)).

(** The state after the setter calls that precede [try] in
    [handleGenerateLook] and [handleGenerateImage]: loading, no error, and
    the displayed result wiped. *)
Definition submitWipe (s : AppState) : AppState :=
  setAnalysisResult (setGeneratedImage (setError (setIsLoading s true) None) None) "".

(** The arguments [handleGenerateLook] passes to [generateLook]. *)
Definition lookFiles (c : AppState) : list File.t := map UploadedFile.file (itemImages c).
Definition lookUser (c : AppState) : option File.t := UploadedFile.file <$> userImage c.

(** What the image call of a try-on, of an edit and of a generation
    resolves to, for the render the handler closes over. *)
Definition lookOutcome (ai : Upstream) (c : AppState) : Thrown + string :=
  imageOf "No image was generated."
    (lookReply ai (lookFiles c) (lookUser c) (sceneDescription c)).

Definition editOutcome (ai : Upstream) (c : AppState) : Thrown + string :=
  imageOf "Could not edit the image."
    (editReply ai (default "" (generatedImage c)) (editPrompt c)).

Definition imageOutcome (ai : Upstream) (c : AppState) : Thrown + string :=
  imageBytesOf (imageReply ai (generatePrompt c) (aspectRatio c)).

(** The inline image payloads of a request, each with its declared media
    type, in order. *)
Definition inlinePayload (p : Part) : option (option string * string) :=
  match p with
  | InlineDataPart d m => Some (d, m)
  | TextPart _ => None
  end.

Definition inlinePayloads (rq : Request) : list (option string * string) :=
  match rq with
  | generateContent _ ps _ => omap inlinePayload ps
  | generateImages _ _ _ _ _ => []
  end.

(** ** Concrete inputs *)

Definition dress_png : File.t :=
  File.mk "dress.png" "image/png" (Some "data:image/png;base64,iVBORw0KGgo=").

(** A file whose read fails: [reader.result] is [null] at [loadend]. *)
Definition unreadable_png : File.t := File.mk "torn.png" "image/png" None.

Definition browser0 : Browser := mkBrowser (fun k => 1700000000000 + N.of_nat k)%N 0 0 ∅.

Definition dress_item : UploadedFile.t := UploadedFile.mk "dress.png-1700000000000" dress_png 0.
Definition torn_item : UploadedFile.t := UploadedFile.mk "torn.png-1700000000001" unreadable_png 1.

(** A try-on ready to submit, with the analysis option ticked. *)
Definition tryOnState : AppState :=
  {| activeTab := tryon; itemImages := [dress_item; torn_item]; userImage := None;
     sceneDescription := "sunset park"; useThinkingMode := true;
     generatePrompt := ""; aspectRatio := ar_1_1; editPrompt := "";
     generatedImage := None; analysisResult := ""; isLoading := false;
     error := None; isZoomModalOpen := false |}.

(** An edit in flight on a held image, the user now on the generation tab
    with a prompt typed in. *)
Definition inFlightState : AppState :=
  {| activeTab := generate; itemImages := [dress_item]; userImage := None;
     sceneDescription := "sunset park"; useThinkingMode := false;
     generatePrompt := "astronaut on Mars"; aspectRatio := ar_16_9;
     editPrompt := "add a retro filter";
     generatedImage := Some "T0xE"; analysisResult := ""; isLoading := true;
     error := None; isZoomModalOpen := false |}.

(** A held image and an edit instruction, nothing in flight. *)
Definition editState : AppState :=
  {| activeTab := edit; itemImages := [dress_item]; userImage := None;
     sceneDescription := "sunset park"; useThinkingMode := false;
     generatePrompt := ""; aspectRatio := ar_1_1;
     editPrompt := "add a retro filter";
     generatedImage := Some "T0xE"; analysisResult := ""; isLoading := false;
     error := None; isZoomModalOpen := false |}.

(** A service whose image model answers with one text part and one image,
    whose analysis model rejects, and whose text-to-image model answers
    with one image. *)
Definition service_analysis_down : Upstream :=
  mkUpstream
    (fun md ps c =>
       if String.eqb md "gemini-2.5-pro" then inl (ErrorObject "429 quota exceeded")
       else inr (GenerateContentResponse.mk
                   [[ResponsePart.mk None; ResponsePart.mk (Some (Blob.mk "SU1H" "image/png"))]]
                   ""))
    (fun md p n a o => inr (GenerateImagesResponse.mk ["R0VO"])).

(** A service whose image model answers with text only. *)
Definition service_text_only : Upstream :=
  mkUpstream
    (fun md ps c => inr (GenerateContentResponse.mk [[ResponsePart.mk None]] "Sorry."))
    (fun md p n a o => inr (GenerateImagesResponse.mk ["R0VO"])).

(** A service whose image model rejects every request. *)
Definition service_down : Upstream :=
  mkUpstream
    (fun md ps c => inl (ErrorObject "503 unavailable"))
    (fun md p n a o => inl (ErrorObject "503 unavailable")).

(** A service whose image model answers with no candidate at all (as when
    the prompt is blocked): the [candidates] array is empty. *)
Definition service_no_candidate : Upstream :=
  mkUpstream
    (fun md ps c => inr (GenerateContentResponse.mk [] ""))
    (fun md p n a o => inr (GenerateImagesResponse.mk ["R0VO"])).

(** ** The rest of the view and the two small components *)

(** The analysis card below the output square is rendered under
    [analysisResult && ...]. *)
Definition analysisPanelShown (c : AppState) : bool := truthy (analysisResult c).

(** The "Start Over" buttons of the try-on and of the generation inputs
    are rendered under [generatedImage && ...]. *)
Definition startOverShown (c : AppState) : bool := truthy_opt (generatedImage c).

(** [renderZoomModal]: [isZoomModalOpen && generatedImage && ...]. *)
Definition zoomModalShown (c : AppState) : bool :=
  isZoomModalOpen c && truthy_opt (generatedImage c).

(** The anchor element [handleDownloadImage] builds and clicks. *)
Module Link.
Record t : Type := mk { href : string; download : string }.
End Link.

(** [handleDownloadImage]: nothing without an image; otherwise a link
    whose [href] is the JPEG data URL of the held image and whose
    [download] name carries the clock reading. *)
Definition handleDownloadImage (c : AppState) (b : Browser) : option Link.t * Browser :=
  if negb (truthy_opt (generatedImage c)) then (None, b)
  else
    let href := "data:image/jpeg;base64," +:+ default "" (generatedImage c) in
    let '(now, b1) := Date_now b in
    (Some (Link.mk href ("stylemix-studio-" +:+ pretty now +:+ ".jpeg")), b1).

(** [components/FileUpload.tsx]: the handlers of the picker. [W] is
    whatever the parent's [onFilesChange] callback updates; the widget's own
    state is the [isDragging] flag. *)
Module FileUpload.
Section Widget.
Context {W : Type}.
Variable onFilesChange : list File.t -> W -> W.

(** [handleDrag], on the [type] of the drag event. *)
Definition handleDrag (type : string) (isDragging : bool) : bool :=
  if String.eqb type "dragenter" || String.eqb type "dragover" then true
  else if String.eqb type "dragleave" then false
  else isDragging.

(** [handleDrop]; [files] is [e.dataTransfer.files], [None] when absent. *)
Definition handleDrop (files : option (list File.t)) (st : bool * W) : bool * W :=
  (false,
   match files with
   | Some fs => if (0 <? length fs)%nat then onFilesChange fs st.2 else st.2
   | None => st.2
   end).

(** [handleChange]; [files] is [e.target.files], [None] when [null]. *)
Definition handleChange (files : option (list File.t)) (st : bool * W) : bool * W :=
  (st.1,
   match files with
   | Some fs => if (0 <? length fs)%nat then onFilesChange fs st.2 else st.2
   | None => st.2
   end).
End Widget.
End FileUpload.

(** [components/LoadingSpinner.tsx]. The component holds the [message]
    cell; the effect's closure holds [index]. One [tick] is one firing of
    the interval callback. [messages[index]] is [None] when the JavaScript
    value is [undefined]. *)
Module Spinner.
Definition messages : list string :=
  ["Mixing the styles...";
   "Warming up the AI stylist...";
   "Draping the fabrics...";
   "Adjusting the lighting...";
   "Perfecting the final look...";
   "This can take a minute, great style is worth the wait!"].

Record t : Type := mk { index : nat; message : option string }.

(** [useState(messages[0])] and [let index = 0]. *)
Definition initial : t := mk 0 (messages !! 0%nat).

(** [index = (index + 1) % messages.length; setMessage(messages[index])]. *)
Definition tick (st : t) : t :=
  let index := ((index st + 1) mod length messages)%nat in
  mk index (messages !! index).

(** The state after [n] firings of the interval. *)
Fixpoint ticks (n : nat) (st : t) : t :=
  match n with
  | O => st
  | S n => tick (ticks n st)
  end.
End Spinner.

(** Whether a character occurs in a string. *)
Fixpoint occurs (c : ascii) (s : string) : bool :=
  match s with
  | EmptyString => false
  | String a rest => Ascii.eqb a c || occurs c rest
  end.

(** The item [handleItemFiles] builds for the [i]-th file of a selection,
    from the browser it starts with. *)
Definition uploadedAt (b : Browser) (i : nat) (f : File.t) : UploadedFile.t :=
  UploadedFile.mk (File.name f +:+ "-" +:+ pretty (clock b (clockReads b + i)%nat))
    f (nextURL b + i)%nat.

(** The cells that hold what the user entered or selected, apart from the
    edit instruction. *)
Definition inputsOf (c : AppState)
  : AppTab * list UploadedFile.t * option UploadedFile.t * string * bool * string
    * AspectRatio * bool :=
  (activeTab c, itemImages c, userImage c, sceneDescription c, useThinkingMode c,
   generatePrompt c, aspectRatio c, isZoomModalOpen c).

(** * Properties *)

(** ** How [run] goes through the combinators *)

Section RunLaws.
Context {A B : Type}.
Implicit Types (ai : Upstream) (s : AppState).

Lemma run_bind (m : Async A) (f : A -> Async B) ai s :
  run (m ≫= f) ai s =
  match run m ai s with
  | (inr a, s1, t1) => let '(r, s2, t2) := run (f a) ai s1 in (r, s2, t1 ++ t2)
  | (inl e, s1, t1) => (inl e, s1, t1)
  end.
Proof.
  unfold mbind, Async_mbind. revert s.
  induction m as [a|e|u k IH|md ps c k IH|md p n a o k IH]; intros s; simpl.
  - destruct (run (f a) ai s) as [[r s2] t2]. reflexivity.
  - reflexivity.
  - apply IH.
  - rewrite IH. destruct (run (k _) ai s) as [[[e|a] s1] t1]; simpl; [reflexivity|].
    destruct (run (f a) ai s1) as [[r s2] t2]. reflexivity.
  - rewrite IH. destruct (run (k _) ai s) as [[[e|x] s1] t1]; simpl; [reflexivity|].
    destruct (run (f x) ai s1) as [[r s2] t2]. reflexivity.
Qed.

Lemma run_try_catch (body : Async A) (handler : Thrown -> Async A) ai s :
  run (try_catch body handler) ai s =
  match run body ai s with
  | (inl e, s1, t1) => let '(r, s2, t2) := run (handler e) ai s1 in (r, s2, t1 ++ t2)
  | (inr a, s1, t1) => (inr a, s1, t1)
  end.
Proof.
  revert s.
  induction body as [a|e|u k IH|md ps c k IH|md p n a o k IH]; intros s; simpl.
  - reflexivity.
  - destruct (run (handler e) ai s) as [[r s2] t2]. reflexivity.
  - apply IH.
  - rewrite IH. destruct (run (k _) ai s) as [[[e|a] s1] t1]; simpl; [|reflexivity].
    destruct (run (handler e) ai s1) as [[r s2] t2]. reflexivity.
  - rewrite IH. destruct (run (k _) ai s) as [[[e|x] s1] t1]; simpl; [|reflexivity].
    destruct (run (handler e) ai s1) as [[r s2] t2]. reflexivity.
Qed.

Lemma run_try_finally_call (body : Async A) (u : AppState -> AppState) ai s :
  run (try_finally body (call u)) ai s =
  let '(r, s1, t1) := run body ai s in (r, u s1, t1).
Proof.
  revert s.
  induction body as [a|e|u' k IH|md ps c k IH|md p n a o k IH]; intros s; simpl.
  - reflexivity.
  - reflexivity.
  - apply IH.
  - rewrite IH. destruct (run (k _) ai s) as [[r s1] t1]. reflexivity.
  - rewrite IH. destruct (run (k _) ai s) as [[r s1] t1]. reflexivity.
Qed.
End RunLaws.

Lemma run_call (u : AppState -> AppState) ai s :
  run (call u) ai s = (inr tt, u s, []).
Proof. reflexivity. Qed.

Lemma run_call_then {A} (u : AppState -> AppState) (k : Async A) ai s :
  run (call u;; k) ai s = run k ai (u s).
Proof. reflexivity. Qed.

(** ** What the service functions do, as equations on [run] *)

Lemma fileToGenerativePart_Ret file : fileToGenerativePart file = Ret (encodedPart file).
Proof. reflexivity. Qed.

Lemma Promise_all_fileToGenerativePart files :
  Promise_all (map fileToGenerativePart files) = Ret (map encodedPart files).
Proof.
  induction files as [|f files IH]; simpl; [reflexivity|].
  rewrite IH. reflexivity.
Qed.

Lemma run_generateLook items user scene ai s :
  run (generateLook items user scene) ai s =
  (imageOf "No image was generated." (lookReply ai items user scene),
   s, [lookRequest items user scene]).
Proof.
  unfold generateLook, lookReply, lookRequest, lookParts.
  rewrite Promise_all_fileToGenerativePart.
  destruct user as [u|]; simpl;
    (destruct (onGenerateContent ai _ _ _) as [e|[[|parts rest] txt]]; simpl;
     [reflexivity|reflexivity|]);
    unfold returnFirstInlineData; destruct (firstInlineData parts); reflexivity.
Qed.

Lemma run_editImage img p ai s :
  run (editImage img p) ai s =
  (imageOf "Could not edit the image." (editReply ai img p),
   s, [editRequest img p]).
Proof.
  unfold editImage, editReply, editRequest, editParts; simpl.
  destruct (onGenerateContent ai _ _ _) as [e|[[|parts rest] txt]]; simpl;
    [reflexivity|reflexivity|].
  unfold returnFirstInlineData; destruct (firstInlineData parts); reflexivity.
Qed.

Lemma run_analyzeLookWithThinking img scene ai s :
  run (analyzeLookWithThinking img scene) ai s =
  (match analysisReply ai img scene with
   | inl e => inl e
   | inr response => inr (GenerateContentResponse.text response)
   end, s, [analysisRequest img scene]).
Proof.
  unfold analyzeLookWithThinking, analysisReply, analysisRequest, analysisParts; simpl.
  destruct (onGenerateContent ai _ _ _) as [e|response]; reflexivity.
Qed.

(** ** What the submit handlers do, as equations on [run] *)

Lemma run_handleGenerateLook_rejected c ai s :
  lookGuardFails c = true ->
  run (handleGenerateLook c) ai s =
  (inr tt, setError s (Some "Please upload at least one item and describe the scene."), []).
Proof. unfold handleGenerateLook, lookGuardFails. intros ->. reflexivity. Qed.

Lemma run_handleGenerateLook_accepted c ai s :
  lookGuardFails c = false ->
  run (handleGenerateLook c) ai s =
  let rq := lookRequest (lookFiles c) (lookUser c) (sceneDescription c) in
  match lookOutcome ai c with
  | inl e =>
      (inr tt, setIsLoading (setError (submitWipe s) (Some (errorMessage e))) false, [rq])
  | inr img =>
      let s1 := setGeneratedImage (submitWipe s) (Some img) in
      if useThinkingMode c then
        match analysisReply ai img (sceneDescription c) with
        | inl e =>
            (inr tt, setIsLoading (setError s1 (Some (errorMessage e))) false,
             [rq; analysisRequest img (sceneDescription c)])
        | inr response =>
            (inr tt,
             setIsLoading (setAnalysisResult s1 (GenerateContentResponse.text response)) false,
             [rq; analysisRequest img (sceneDescription c)])
        end
      else (inr tt, setIsLoading s1 false, [rq])
  end.
Proof.
  unfold handleGenerateLook, lookGuardFails. intros ->.
  rewrite !run_call_then. unfold finallyBlock.
  rewrite run_try_finally_call, run_try_catch, run_bind, run_generateLook.
  fold (lookFiles c) (lookUser c). unfold lookOutcome.
  destruct (imageOf _ _) as [e|img]; [reflexivity|].
  cbv beta iota. rewrite run_call_then.
  destruct (useThinkingMode c); [|reflexivity].
  rewrite run_bind, run_analyzeLookWithThinking.
  destruct (analysisReply ai img _) as [e|response]; reflexivity.
Qed.

Lemma run_handleEditImage_rejected c ai s :
  editGuardFails c = true ->
  run (handleEditImage c) ai s =
  (inr tt, setError s (Some "Please generate an image first and enter an edit prompt."), []).
Proof. unfold handleEditImage, editGuardFails. intros ->. reflexivity. Qed.

Lemma run_handleEditImage_accepted c ai s :
  editGuardFails c = false ->
  run (handleEditImage c) ai s =
  let rq := editRequest (default "" (generatedImage c)) (editPrompt c) in
  let s0 := setError (setIsLoading s true) None in
  match editOutcome ai c with
  | inl e => (inr tt, setIsLoading (setError s0 (Some (errorMessage e))) false, [rq])
  | inr img =>
      (inr tt, setIsLoading (setEditPrompt (setGeneratedImage s0 (Some img)) "") false, [rq])
  end.
Proof.
  unfold handleEditImage, editGuardFails. intros ->.
  rewrite !run_call_then. unfold finallyBlock.
  rewrite run_try_finally_call, run_try_catch, run_bind, run_editImage.
  unfold editOutcome.
  destruct (imageOf _ _) as [e|img]; reflexivity.
Qed.

Lemma run_generateImageFromText prompt ratio ai s :
  run (generateImageFromText prompt ratio) ai s =
  (imageBytesOf (imageReply ai prompt ratio), s, [imageRequest prompt ratio]).
Proof.
  unfold generateImageFromText, imageReply, imageRequest; simpl.
  destruct (onGenerateImages ai _ _ _ _ _) as [e|[[|bytes rest]]]; simpl;
    [reflexivity|reflexivity|].
  destruct (truthy bytes); reflexivity.
Qed.

Lemma run_handleGenerateImage_rejected c ai s :
  imageGuardFails c = true ->
  run (handleGenerateImage c) ai s =
  (inr tt, setError s (Some "Please enter a prompt to generate an image."), []).
Proof. unfold handleGenerateImage, imageGuardFails. intros ->. reflexivity. Qed.

Lemma run_handleGenerateImage_accepted c ai s :
  imageGuardFails c = false ->
  run (handleGenerateImage c) ai s =
  let rq := imageRequest (generatePrompt c) (aspectRatio c) in
  match imageOutcome ai c with
  | inl e =>
      (inr tt, setIsLoading (setError (submitWipe s) (Some (errorMessage e))) false, [rq])
  | inr img => (inr tt, setIsLoading (setGeneratedImage (submitWipe s) (Some img)) false, [rq])
  end.
Proof.
  unfold handleGenerateImage, imageGuardFails. intros ->.
  rewrite !run_call_then. unfold finallyBlock.
  rewrite run_try_finally_call, run_try_catch, run_bind, run_generateImageFromText.
  unfold imageOutcome.
  destruct (imageBytesOf _) as [e|img]; reflexivity.
Qed.

(** ** The guards in terms of the cells *)

Lemma truthy_true v : truthy v = true <-> v <> "".
Proof. destruct v; simpl; split; congruence. Qed.

Lemma truthy_false v : truthy v = false <-> v = "".
Proof. destruct v; simpl; split; congruence. Qed.

Lemma lookGuardFails_true c :
  lookGuardFails c = true <-> itemImages c = [] \/ sceneDescription c = "".
Proof.
  unfold lookGuardFails. rewrite orb_true_iff, negb_true_iff, truthy_false.
  destruct (itemImages c); simpl; split; intros [H|H]; auto; discriminate.
Qed.

Lemma lookGuardFails_false c :
  lookGuardFails c = false <-> itemImages c <> [] /\ sceneDescription c <> "".
Proof.
  unfold lookGuardFails. rewrite orb_false_iff, negb_false_iff, truthy_true.
  destruct (itemImages c); simpl; split; intros [H1 H2]; split; auto; congruence.
Qed.

Lemma editGuardFails_false c :
  editGuardFails c = false <->
  (exists img, generatedImage c = Some img /\ img <> "") /\ editPrompt c <> "".
Proof.
  unfold editGuardFails. rewrite orb_false_iff, !negb_false_iff, truthy_true.
  destruct (generatedImage c) as [img|]; simpl.
  - rewrite truthy_true. split.
    + intros [H1 H2]. split; [exists img; auto|done].
    + intros [(img' & [= <-] & H1) H2]. auto.
  - split; [intros [? _]; discriminate|intros [(img & ? & _) _]; discriminate].
Qed.

Lemma editGuardFails_true c :
  editGuardFails c = true <->
  generatedImage c = None \/ generatedImage c = Some "" \/ editPrompt c = "".
Proof.
  unfold editGuardFails. rewrite orb_true_iff, !negb_true_iff, truthy_false.
  destruct (generatedImage c) as [img|]; simpl.
  - rewrite truthy_false. split.
    + intros [->|H]; auto.
    + intros [H|[[= ->]|H]]; auto; discriminate.
  - split; auto.
Qed.

Lemma firstInlineData_None parts :
  firstInlineData parts = None <->
  Forall (fun part => ResponsePart.inlineData part = None) parts.
Proof.
  induction parts as [|part parts IH]; simpl.
  - split; [constructor|reflexivity].
  - destruct (ResponsePart.inlineData part) as [blob|] eqn:E.
    + split; [discriminate|]. intros H. inversion H; congruence.
    + rewrite IH. split; [constructor; assumption|]. intros H. inversion H; assumption.
Qed.

(** ** Try-on: validation, failure and partial success *)

(** C3. A try-on submitted with an empty item list or an empty scene text
    stops at the required-field guard: the handler returns after setting the
    validation message, no request is issued, and every other cell (the
    current result, the loading flag, the inputs) is as before. *)
Theorem tryon_validation_error ai s :
  itemImages s = [] \/ sceneDescription s = "" ->
  invoke handleGenerateLook ai s =
  (inr tt,
   setError s (Some "Please upload at least one item and describe the scene."),
   []).
Proof.
  intros H. apply lookGuardFails_true in H.
  unfold invoke. apply run_handleGenerateLook_rejected, H.
Qed.

Lemma tryon_validation_error_witness :
  invoke handleGenerateLook service_analysis_down initialState =
  (inr tt,
   setError initialState (Some "Please upload at least one item and describe the scene."),
   []).
Proof. apply (tryon_validation_error service_analysis_down initialState). left. reflexivity. Defined.

(** X27. When the image model answers a try-on or an edit with a first
    candidate that has no part with inline data, the handler ends with the
    service function's own error in the error cell and the loading flag
    down, so the request is reported as failed. A try-on leaves the result
    cells as its submit-time wipe left them (no image, no analysis); an edit,
    which does not wipe, leaves the held image as it was. One request was
    issued in either case. *)
Theorem no_image_parts_is_generation_error ai s response parts rest :
  GenerateContentResponse.candidates response = parts :: rest ->
  Forall (fun part => ResponsePart.inlineData part = None) parts ->
  (itemImages s <> [] -> sceneDescription s <> "" ->
   lookReply ai (lookFiles s) (lookUser s) (sceneDescription s) = inr response ->
   let r := invoke handleGenerateLook ai s in
   finalState r =
     setIsLoading
       (setError (setAnalysisResult (setGeneratedImage s None) "")
          (Some "No image was generated.")) false
   /\ requestStatus (finalState r) = Failed "No image was generated."
   /\ requests r = [lookRequest (lookFiles s) (lookUser s) (sceneDescription s)])
  /\
  (forall img, generatedImage s = Some img -> img <> "" -> editPrompt s <> "" ->
   editReply ai img (editPrompt s) = inr response ->
   let r := invoke handleEditImage ai s in
   finalState r = setIsLoading (setError s (Some "Could not edit the image.")) false
   /\ generatedImage (finalState r) = Some img
   /\ requestStatus (finalState r) = Failed "Could not edit the image."
   /\ requests r = [editRequest img (editPrompt s)]).
Proof.
  intros Hc Hparts. apply firstInlineData_None in Hparts. split.
  - intros Hitems Hscene Hreply r.
    assert (Hg : lookGuardFails s = false) by (apply lookGuardFails_false; auto).
    subst r. unfold invoke. rewrite (run_handleGenerateLook_accepted _ _ _ Hg).
    unfold lookOutcome. rewrite Hreply. simpl. rewrite Hc, Hparts.
    destruct s; repeat split.
  - intros img Himg Hne Hprompt Hreply r.
    assert (Hg : editGuardFails s = false).
    { apply editGuardFails_false. split; [exists img|]; auto. }
    subst r. unfold invoke. rewrite (run_handleEditImage_accepted _ _ _ Hg).
    unfold editOutcome. rewrite Himg. simpl. rewrite Hreply. simpl. rewrite Hc, Hparts.
    destruct s; simpl in *. repeat split. assumption.
Qed.

Lemma no_image_parts_is_generation_error_witness :
  (let r := invoke handleGenerateLook service_text_only editState in
   finalState r =
     setIsLoading
       (setError (setAnalysisResult (setGeneratedImage editState None) "")
          (Some "No image was generated.")) false
   /\ requestStatus (finalState r) = Failed "No image was generated."
   /\ requests r =
      [lookRequest (lookFiles editState) (lookUser editState) (sceneDescription editState)])
  /\
  (let r := invoke handleEditImage service_text_only editState in
   finalState r = setIsLoading (setError editState (Some "Could not edit the image.")) false
   /\ generatedImage (finalState r) = Some "T0xE"
   /\ requestStatus (finalState r) = Failed "Could not edit the image."
   /\ requests r = [editRequest "T0xE" (editPrompt editState)]).
Proof.
  destruct (no_image_parts_is_generation_error service_text_only editState
              (GenerateContentResponse.mk [[ResponsePart.mk None]] "Sorry.")
              [ResponsePart.mk None] [] eq_refl
              ltac:(repeat constructor)) as [Hlook Hedit].
  split.
  - apply Hlook; [discriminate|discriminate|reflexivity].
  - apply (Hedit "T0xE"); [reflexivity|discriminate|discriminate|reflexivity].
Defined.

(** When the answer of the image model has no candidate at all, reading
    [candidates[0].content] raises before the loop over the parts is
    reached: the error that ends in the error cell is that [TypeError], not
    the function's own. The request fails all the same, with the result
    cells as for any other failure. *)
Lemma no_candidate_raises_before_the_loop ai s response :
  GenerateContentResponse.candidates response = [] ->
  (lookGuardFails s = false ->
   lookReply ai (lookFiles s) (lookUser s) (sceneDescription s) = inr response ->
   finalState (invoke handleGenerateLook ai s)
   = setIsLoading
       (setError (setAnalysisResult (setGeneratedImage s None) "")
          (Some (errorMessage (TypeError_reading "content")))) false)
  /\ (editGuardFails s = false ->
      editReply ai (default "" (generatedImage s)) (editPrompt s) = inr response ->
      finalState (invoke handleEditImage ai s)
      = setIsLoading
          (setError s (Some (errorMessage (TypeError_reading "content")))) false).
Proof.
  intros Hc. unfold invoke. split; intros Hg Hreply.
  - rewrite (run_handleGenerateLook_accepted _ _ _ Hg). cbv zeta.
    unfold lookOutcome. rewrite Hreply. simpl. rewrite Hc. reflexivity.
  - rewrite (run_handleEditImage_accepted _ _ _ Hg). cbv zeta.
    unfold editOutcome. rewrite Hreply. simpl. rewrite Hc. reflexivity.
Qed.

(** C4, at the failing input: the image model answers a try-on, and an
    edit, with a response that has no candidate, hence no image part. The
    loop over [candidates[0].content.parts] and the [throw new Error(...)]
    after it are never reached; reading the missing candidate raises a
    [TypeError] instead. The request is reported as failed and the result
    cells are as the claim says (wiped by the try-on, kept by the edit), but
    the error is the engine's message about [undefined], not "No image was
    generated." nor "Could not edit the image.", which the same functions
    raise when the first candidate is there and holds no image. *)
Theorem no_candidate_is_not_a_generation_error :
  lookReply service_no_candidate (lookFiles editState) (lookUser editState)
    (sceneDescription editState)
  = inr (GenerateContentResponse.mk [] "")
  /\ editReply service_no_candidate "T0xE" (editPrompt editState)
     = inr (GenerateContentResponse.mk [] "")
  /\ (let r := invoke handleGenerateLook service_no_candidate editState in
      error (finalState r) = Some "Cannot read properties of undefined (reading 'content')"
      /\ error (finalState r) <> Some "No image was generated."
      /\ requestStatus (finalState r)
         = Failed "Cannot read properties of undefined (reading 'content')"
      /\ generatedImage (finalState r) = None
      /\ length (requests r) = 1%nat)
  /\ (let r := invoke handleEditImage service_no_candidate editState in
      error (finalState r) = Some "Cannot read properties of undefined (reading 'content')"
      /\ error (finalState r) <> Some "Could not edit the image."
      /\ requestStatus (finalState r)
         = Failed "Cannot read properties of undefined (reading 'content')"
      /\ generatedImage (finalState r) = Some "T0xE"
      /\ length (requests r) = 1%nat)
  /\ error (finalState (invoke handleGenerateLook service_text_only editState))
     = Some "No image was generated."
  /\ error (finalState (invoke handleEditImage service_text_only editState))
     = Some "Could not edit the image.".
Proof.
  repeat split; try reflexivity; vm_compute; discriminate.
Qed.

(** C2, the claim as stated, at a concrete input: items and scene present,
    analysis requested, the image call answers with an image and the
    analysis call rejects. The handler's single [catch] takes the rejection:
    the error cell is set and the output area shows the error panel, so the
    request is reported as failed, not as succeeded. *)
Lemma analysis_failure_not_reported_success :
  itemImages tryOnState <> [] /\ sceneDescription tryOnState <> ""
  /\ useThinkingMode tryOnState = true
  /\ lookOutcome service_analysis_down tryOnState = inr "SU1H"
  /\ analysisReply service_analysis_down "SU1H" (sceneDescription tryOnState)
     = inl (ErrorObject "429 quota exceeded")
  /\ let r := invoke handleGenerateLook service_analysis_down tryOnState in
     requestStatus (finalState r) = Failed "429 quota exceeded"
     /\ requestStatus (finalState r) <> Succeeded
     /\ error (finalState r) <> None
     /\ renderOutputArea (finalState r)
        = [ErrorPanel "429 quota exceeded"; GeneratedImagePanel "SU1H"].
Proof.
  repeat split; try discriminate; vm_compute; congruence.
Qed.

(** C2, amended. When a try-on with the analysis option passes the guard,
    its image call yields an image and its analysis call rejects, the image
    stays in the result cell, the analysis cell stays empty and both
    requests were issued; the image is not hidden: it is shown exactly when
    it is non-empty, as without the failure. The message of the rejection is
    put in the error cell. So the request is reported as failed with that
    message whenever the message is non-empty, with the error panel next to
    the image; only a rejection whose message is the empty string shows no
    error, and the request then reads as succeeded (idle for an empty
    image). *)
Theorem analysis_failure_keeps_image ai s img e :
  itemImages s <> [] -> sceneDescription s <> "" ->
  useThinkingMode s = true ->
  lookOutcome ai s = inr img ->
  analysisReply ai img (sceneDescription s) = inl e ->
  let r := invoke handleGenerateLook ai s in
  finalState r =
    setIsLoading
      (setError (setAnalysisResult (setGeneratedImage s (Some img)) "")
         (Some (errorMessage e))) false
  /\ generatedImage (finalState r) = Some img
  /\ analysisResult (finalState r) = ""
  /\ error (finalState r) = Some (errorMessage e)
  /\ isLoading (finalState r) = false
  /\ requests r = [lookRequest (lookFiles s) (lookUser s) (sceneDescription s);
                   analysisRequest img (sceneDescription s)]
  /\ (errorMessage e <> "" -> requestStatus (finalState r) = Failed (errorMessage e))
  /\ (img <> "" -> GeneratedImagePanel img ∈ renderOutputArea (finalState r))
  /\ requestStatus (finalState r)
     = (if truthy (errorMessage e) then Failed (errorMessage e)
        else if truthy img then Succeeded else Idle)
  /\ renderOutputArea (finalState r)
     = (if truthy (errorMessage e) then [ErrorPanel (errorMessage e)]
        else if truthy img then [] else [Placeholder])
       ++ (if truthy img then [GeneratedImagePanel img] else [])
  /\ (GeneratedImagePanel img ∈ renderOutputArea (finalState r) <-> img <> "")
  /\ (errorMessage e = "" -> img <> "" ->
      requestStatus (finalState r) = Succeeded
      /\ renderOutputArea (finalState r) = [GeneratedImagePanel img]).
Proof.
  intros Hitems Hscene Hthink Himg Hana r.
  assert (Hg : lookGuardFails s = false) by (apply lookGuardFails_false; auto).
  subst r. unfold invoke. rewrite (run_handleGenerateLook_accepted _ _ _ Hg).
  rewrite Himg. cbv zeta. rewrite Hthink, Hana.
  unfold finalState, requests, requestStatus, renderOutputArea; simpl.
  do 6 (split; [reflexivity|]).
  split; [|split; [|split; [|split; [|split]]]].
  - intros Hm. apply truthy_true in Hm. rewrite Hm. reflexivity.
  - intros Hi. apply truthy_true in Hi. rewrite Hi.
    rewrite !elem_of_app. right. right. apply list_elem_of_here.
  - reflexivity.
  - destruct (truthy (errorMessage e)), (truthy img); reflexivity.
  - rewrite <- truthy_true.
    destruct (truthy (errorMessage e)), (truthy img); simpl;
      rewrite ?elem_of_cons, ?elem_of_nil; intuition (try discriminate; try congruence).
  - intros Hm Hi. apply truthy_false in Hm. apply truthy_true in Hi.
    rewrite Hm, Hi. split; reflexivity.
Qed.

Lemma analysis_failure_keeps_image_witness :
  let r := invoke handleGenerateLook service_analysis_down tryOnState in
  finalState r =
    setIsLoading
      (setError (setAnalysisResult (setGeneratedImage tryOnState (Some "SU1H")) "")
         (Some "429 quota exceeded")) false
  /\ generatedImage (finalState r) = Some "SU1H"
  /\ analysisResult (finalState r) = ""
  /\ error (finalState r) = Some "429 quota exceeded"
  /\ isLoading (finalState r) = false
  /\ requests r = [lookRequest (lookFiles tryOnState) (lookUser tryOnState)
                     (sceneDescription tryOnState);
                   analysisRequest "SU1H" (sceneDescription tryOnState)]
  /\ ("429 quota exceeded" <> "" -> requestStatus (finalState r) = Failed "429 quota exceeded")
  /\ ("SU1H" <> "" -> GeneratedImagePanel "SU1H" ∈ renderOutputArea (finalState r))
  /\ requestStatus (finalState r) = Failed "429 quota exceeded"
  /\ renderOutputArea (finalState r)
     = [ErrorPanel "429 quota exceeded"; GeneratedImagePanel "SU1H"]
  /\ (GeneratedImagePanel "SU1H" ∈ renderOutputArea (finalState r) <-> "SU1H" <> "")
  /\ ("429 quota exceeded" = "" -> "SU1H" <> "" ->
      requestStatus (finalState r) = Succeeded
      /\ renderOutputArea (finalState r) = [GeneratedImagePanel "SU1H"]).
Proof.
  apply (analysis_failure_keeps_image service_analysis_down tryOnState "SU1H"
           (ErrorObject "429 quota exceeded"));
    [discriminate|discriminate|reflexivity|reflexivity|reflexivity].
Defined.

(** A rejection of the analysis call whose message is empty sets the error
    cell to the empty string, which the output area does not show. *)
Lemma analysis_failure_with_empty_message :
  let ai := mkUpstream
              (fun md ps c =>
                 if String.eqb md "gemini-2.5-pro" then inl (ErrorObject "")
                 else inr (GenerateContentResponse.mk
                             [[ResponsePart.mk (Some (Blob.mk "SU1H" "image/png"))]] ""))
              (fun md p n a o => inl OtherValue) in
  let r := invoke handleGenerateLook ai tryOnState in
  error (finalState r) = Some ""
  /\ requestStatus (finalState r) = Succeeded
  /\ renderOutputArea (finalState r) = [GeneratedImagePanel "SU1H"].
Proof. repeat split. Qed.

(** C8. In a try-on with the analysis option, the requests issued are, in
    order: none when the guard stops the handler; the image request alone
    when the image call does not yield an image; the image request followed
    by the analysis request when it yields one. So a request to the analysis
    model is only ever second, after the image request, only when the image
    call has succeeded, and it carries exactly the data of the first inline
    part of the image call's answer. *)
Theorem analysis_follows_image ai s :
  useThinkingMode s = true ->
  let t := requests (invoke handleGenerateLook ai s) in
  let rq := lookRequest (lookFiles s) (lookUser s) (sceneDescription s) in
  (t = if lookGuardFails s then []
       else match lookOutcome ai s with
            | inl _ => [rq]
            | inr img => [rq; analysisRequest img (sceneDescription s)]
            end)
  /\
  (forall i ps c, t !! i = Some (generateContent "gemini-2.5-pro" ps c) ->
     i = 1%nat /\ t !! 0%nat = Some rq
     /\ exists response parts rest img,
          lookReply ai (lookFiles s) (lookUser s) (sceneDescription s) = inr response
          /\ GenerateContentResponse.candidates response = parts :: rest
          /\ firstInlineData parts = Some img
          /\ ps = analysisParts img (sceneDescription s)).
Proof.
  intros Hthink t rq.
  assert (Ht : t = if lookGuardFails s then []
                   else match lookOutcome ai s with
                        | inl _ => [rq]
                        | inr img => [rq; analysisRequest img (sceneDescription s)]
                        end).
  { subst t rq. unfold invoke. destruct (lookGuardFails s) eqn:Hg.
    - rewrite (run_handleGenerateLook_rejected _ _ _ Hg). reflexivity.
    - rewrite (run_handleGenerateLook_accepted _ _ _ Hg). cbv zeta. rewrite Hthink.
      destruct (lookOutcome ai s) as [e|img]; [reflexivity|].
      destruct (analysisReply ai img _); reflexivity. }
  split; [exact Ht|].
  intros i ps c Hi. rewrite Ht in Hi |- *. clear Ht.
  destruct (lookGuardFails s); [discriminate|].
  assert (Hrq : forall ps' c', rq <> generateContent "gemini-2.5-pro" ps' c')
    by (intros ps' c'; discriminate).
  unfold lookOutcome in *.
  destruct (lookReply ai (lookFiles s) (lookUser s) (sceneDescription s))
    as [e|response] eqn:Hreply; simpl in Hi |- *.
  { destruct i as [|[|i]]; [|discriminate..]. destruct (Hrq ps c); simpl in Hi; congruence. }
  destruct (GenerateContentResponse.candidates response) as [|parts rest] eqn:Hc.
  { destruct i as [|[|i]]; [|discriminate..]. destruct (Hrq ps c); simpl in Hi; congruence. }
  destruct (firstInlineData parts) as [d|] eqn:Hd.
  2: { destruct i as [|[|i]]; [|discriminate..]. destruct (Hrq ps c); simpl in Hi; congruence. }
  destruct i as [|[|i]]; [|clear Hrq|discriminate].
  { destruct (Hrq ps c); simpl in Hi; congruence. }
  change (Some (analysisRequest d (sceneDescription s))
          = Some (generateContent "gemini-2.5-pro" ps c)) in Hi.
  unfold analysisRequest in Hi.
  assert (Hparts : analysisParts d (sceneDescription s) = ps) by congruence.
  repeat split. exists response, parts, rest, d. auto.
Qed.

Lemma analysis_follows_image_witness :
  let t := requests (invoke handleGenerateLook service_analysis_down tryOnState) in
  let rq := lookRequest (lookFiles tryOnState) (lookUser tryOnState)
              (sceneDescription tryOnState) in
  (t = if lookGuardFails tryOnState then []
       else match lookOutcome service_analysis_down tryOnState with
            | inl _ => [rq]
            | inr img => [rq; analysisRequest img (sceneDescription tryOnState)]
            end)
  /\
  (forall i ps c, t !! i = Some (generateContent "gemini-2.5-pro" ps c) ->
     i = 1%nat /\ t !! 0%nat = Some rq
     /\ exists response parts rest img,
          lookReply service_analysis_down (lookFiles tryOnState) (lookUser tryOnState)
            (sceneDescription tryOnState) = inr response
          /\ GenerateContentResponse.candidates response = parts :: rest
          /\ firstInlineData parts = Some img
          /\ ps = analysisParts img (sceneDescription tryOnState)).
Proof. apply (analysis_follows_image service_analysis_down tryOnState). reflexivity. Defined.

(** ** Edit keeps the held image until it succeeds *)



(** ** Submitting while a request is in flight *)

(** While a request is in flight the "Generate My Look" button is
    disabled: a click runs no handler. *)
Lemma click_GenerateMyLook_while_loading ai s :
  isLoading s = true -> invoke (click GenerateMyLook) ai s = (inr tt, s, []).
Proof.
  intros Hl. unfold invoke, click. simpl. rewrite Hl, andb_false_r. reflexivity.
Qed.

(** Likewise for the "Apply Edit" button. *)
Lemma click_ApplyEdit_while_loading ai s :
  isLoading s = true -> invoke (click ApplyEdit) ai s = (inr tt, s, []).
Proof.
  intros Hl. unfold invoke, click. simpl. rewrite Hl, andb_false_r. reflexivity.
Qed.

(** None of the three handlers looks at [isLoading]: called while a
    request is in flight, with its inputs present, a handler issues its
    request all the same. *)
Lemma handlers_ignore_isLoading ai s :
  (lookGuardFails s = false -> requests (invoke handleGenerateLook ai s) <> [])
  /\ (imageGuardFails s = false -> requests (invoke handleGenerateImage ai s) <> [])
  /\ (editGuardFails s = false -> requests (invoke handleEditImage ai s) <> []).
Proof.
  unfold invoke. split; [|split]; intros Hg.
  - rewrite (run_handleGenerateLook_accepted _ _ _ Hg). cbv zeta.
    destruct (lookOutcome ai s); [discriminate|].
    destruct (useThinkingMode s); [|discriminate].
    destruct (analysisReply ai _ _); discriminate.
  - rewrite (run_handleGenerateImage_accepted _ _ _ Hg). cbv zeta.
    destruct (imageOutcome ai s); discriminate.
  - rewrite (run_handleEditImage_accepted _ _ _ Hg). cbv zeta.
    destruct (editOutcome ai s); discriminate.
Qed.

(** C1, at the failing input: an edit is in flight on a held image
    ([isLoading] is true), the user is on the generation tab with a prompt
    typed in, and clicks "Generate Image". That button carries no
    [disabled] attribute, so [handleGenerateImage] runs: it wipes the held
    image, issues a text-to-image request and, when that settles, stores
    its image and lowers the loading flag while the edit is still in
    flight. The click is not a no-op. *)
Theorem generate_click_while_loading_runs :
  isLoading inFlightState = true
  /\ rendered GenerateImage inFlightState = true
  /\ disabled GenerateImage inFlightState = false
  /\ let r := invoke (click GenerateImage) service_analysis_down inFlightState in
     requests r = [imageRequest "astronaut on Mars" ar_16_9]
     /\ generatedImage inFlightState = Some "T0xE"
     /\ generatedImage (finalState r) = Some "R0VO"
     /\ isLoading (finalState r) = false
     /\ finalState r <> inFlightState.
Proof.
  repeat split; try reflexivity. vm_compute. discriminate.
Qed.

(** ** Upload intake *)

(** C9. [handleUserFile] on a non-empty selection replaces the reference
    image, whatever it was, by an item built from the first file (its name
    and the clock reading as id, a freshly minted preview URL), and the
    result does not depend on the remaining files; every other cell is
    unchanged. On an empty selection nothing changes at all. *)
Theorem handleUserFile_first_file f rest w :
  handleUserFile (f :: rest) w = handleUserFile [f] w
  /\ (handleUserFile (f :: rest) w).1
     = setUserImage w.1
         (Some (UploadedFile.mk
                  (File.name f +:+ "-" +:+ pretty (clock w.2 (clockReads w.2)))
                  f (nextURL w.2)))
  /\ userImage (handleUserFile (f :: rest) w).1
     = Some (UploadedFile.mk
               (File.name f +:+ "-" +:+ pretty (clock w.2 (clockReads w.2)))
               f (nextURL w.2))
  /\ handleUserFile [] w = w.
Proof. repeat split. Qed.

Lemma filter_id_of_Forall {A} (P : A -> Prop) `{!forall x, Decision (P x)} (l : list A) :
  Forall P l -> filter P l = l.
Proof.
  induction 1 as [|x l Hx _ IH]; [reflexivity|].
  rewrite filter_cons_True by assumption. f_equal. exact IH.
Qed.

Lemma filter_middle_out {A} (P : A -> Prop) `{!forall x, Decision (P x)} (l1 l2 : list A) x :
  ~ P x -> Forall P (l1 ++ l2) -> filter P (l1 ++ x :: l2) = l1 ++ l2.
Proof.
  intros Hx Hall. apply Forall_app in Hall as [H1 H2].
  rewrite filter_app, filter_cons_False by assumption.
  rewrite !filter_id_of_Forall by assumption. reflexivity.
Qed.

Lemma setItemImages_same s : setItemImages s (fun _ => itemImages s) = s.
Proof. destruct s; reflexivity. Qed.

(** C7, the claim as stated, at a concrete input: one file is uploaded,
    which mints preview URL 0, and the item is then removed by its id. The
    item is gone from the list, but its preview URL is still alive in the
    browser: nothing has revoked it. *)
Lemma removeItem_leaves_preview_alive :
  let w := handleItemFiles [dress_png] (initialState, browser0) in
  let w' := removeItem (UploadedFile.id dress_item) w in
  itemImages w.1 = [dress_item]
  /\ itemImages w'.1 = []
  /\ UploadedFile.preview dress_item ∈ liveURLs w'.2
  /\ ~ (UploadedFile.preview dress_item ∉ liveURLs w'.2).
Proof.
  assert (H : UploadedFile.preview dress_item
              ∈ liveURLs (removeItem (UploadedFile.id dress_item)
                            (handleItemFiles [dress_png] (initialState, browser0))).2).
  { simpl. set_solver. }
  repeat split. intros Hn. exact (Hn H).
Qed.

(** C7, amended. [removeItem id] keeps exactly the items whose id differs
    from [id], in their order: when one item has that id and no other does,
    the list is as before without it; when no item has that id, nothing
    changes at all. No other cell changes, and the browser is untouched: the
    preview URLs alive before are alive after, the removed item's included
    (no handle is released). *)
Theorem removeItem_filters_by_id id w :
  let w' := removeItem id w in
  (forall item, item ∈ itemImages w'.1 <-> item ∈ itemImages w.1 /\ UploadedFile.id item ≠ id)
  /\ itemImages w'.1 `sublist_of` itemImages w.1
  /\ (forall l1 x l2,
        itemImages w.1 = l1 ++ x :: l2 -> UploadedFile.id x = id ->
        Forall (fun y => UploadedFile.id y ≠ id) (l1 ++ l2) ->
        itemImages w'.1 = l1 ++ l2)
  /\ (Forall (fun y => UploadedFile.id y ≠ id) (itemImages w.1) -> w' = w)
  /\ w'.1 = setItemImages w.1 (fun _ => itemImages w'.1)
  /\ w'.2 = w.2
  /\ liveURLs w'.2 = liveURLs w.2.
Proof.
  destruct w as [s b]. simpl. repeat split.
  - apply list_elem_of_filter in H. tauto.
  - apply list_elem_of_filter in H. tauto.
  - intros [H1 H2]. apply list_elem_of_filter. tauto.
  - apply sublist_filter.
  - intros l1 x l2 -> Hx Hall. apply filter_middle_out; [|assumption].
    intros Hn. exact (Hn Hx).
  - intros Hall. unfold removeItem. simpl.
    f_equal. destruct s; simpl in *. unfold setItemImages; simpl.
    rewrite filter_id_of_Forall by assumption. reflexivity.
Qed.

Lemma removeItem_filters_by_id_witness :
  let w := handleItemFiles [dress_png; unreadable_png] (initialState, browser0) in
  itemImages w.1 = [dress_item; torn_item]
  /\ itemImages (removeItem "dress.png-1700000000000" w).1 = [torn_item]
  /\ removeItem "shoes.png-1700000000000" w = w.
Proof.
  pose proof (removeItem_filters_by_id "dress.png-1700000000000"
                (handleItemFiles [dress_png; unreadable_png] (initialState, browser0)))
    as (_ & _ & Hone & _).
  pose proof (removeItem_filters_by_id "shoes.png-1700000000000"
                (handleItemFiles [dress_png; unreadable_png] (initialState, browser0)))
    as (_ & _ & _ & Hnone & _).
  split; [vm_compute; reflexivity|]. split.
  - apply (Hone [] dress_item [torn_item]); [vm_compute; reflexivity|reflexivity|].
    repeat constructor. discriminate.
  - apply Hnone. vm_compute. repeat constructor; discriminate.
Defined.

(** ** Encoding *)

Lemma elem_of_map {A B} (f : A -> B) (l : list A) x : x ∈ l -> f x ∈ map f l.
Proof. rewrite !list_elem_of_In. apply in_map. Qed.

Lemma lookRequest_carries_items items user scene file :
  file ∈ items ->
  inlinePayload (encodedPart file) ∈ Some <$> inlinePayloads (lookRequest items user scene).
Proof.
  intros Hin. unfold lookRequest, lookParts, inlinePayloads. simpl.
  apply list_elem_of_fmap. exists (match File.dataURL file with
                                   | Some result => split "," result !! 1%nat
                                   | None => Some EmptyString
                                   end, File.type file).
  split; [reflexivity|].
  apply list_elem_of_omap. exists (encodedPart file). split; [|reflexivity].
  apply elem_of_app. right. apply elem_of_map, Hin.
Qed.

(** C5, the claim as stated, at a concrete input: a file whose read fails.
    [fileToGenerativePart] does not fail; it resolves to a part with the
    empty string as data, and a try-on that holds the file sends that part
    to the image model next to the readable one. *)
Lemma unreadable_file_is_not_an_error :
  File.dataURL unreadable_png = None
  /\ (forall e, outcome (run (fileToGenerativePart unreadable_png) service_down initialState)
                <> inl e)
  /\ outcome (run (fileToGenerativePart unreadable_png) service_down initialState)
     = inr (InlineDataPart (Some "") "image/png")
  /\ inlinePayloads <$> requests (invoke handleGenerateLook service_analysis_down tryOnState)
     = [[(Some "iVBORw0KGgo=", "image/png"); (Some "", "image/png")];
        [(Some "SU1H", "image/jpeg")]].
Proof.
  repeat split; try reflexivity. intros e. discriminate.
Qed.

(** C5, amended. For a file that cannot be read, [fileToGenerativePart]
    does not fail: it resolves, without any request or state change, to a
    part whose data is the empty string and whose media type is the file's
    declared type; and a try-on that holds such a file and passes its guard
    sends that empty payload to the image model. *)
Theorem unreadable_file_encodes_empty file :
  File.dataURL file = None ->
  (forall ai s,
     run (fileToGenerativePart file) ai s
     = (inr (InlineDataPart (Some "") (File.type file)), s, []))
  /\ (forall ai s item,
        item ∈ itemImages s -> UploadedFile.file item = file -> sceneDescription s <> "" ->
        exists rq rest,
          requests (invoke handleGenerateLook ai s) = rq :: rest
          /\ (Some "", File.type file) ∈ inlinePayloads rq).
Proof.
  intros Hread. split.
  - intros ai s. unfold fileToGenerativePart. rewrite Hread. reflexivity.
  - intros ai s item Hin Hfile Hscene.
    assert (Hg : lookGuardFails s = false).
    { apply lookGuardFails_false. split; [|assumption].
      intros Hnil. rewrite Hnil in Hin. inversion Hin. }
    assert (Hpay : (Some "", File.type file)
                   ∈ inlinePayloads (lookRequest (lookFiles s) (lookUser s)
                                       (sceneDescription s))).
    { pose proof (lookRequest_carries_items (lookFiles s) (lookUser s)
                    (sceneDescription s) file) as H.
      unfold encodedPart in H. rewrite Hread in H. simpl in H.
      apply list_elem_of_fmap_inj_2 in H; [exact H|apply _|].
      rewrite <- Hfile. apply elem_of_map, Hin. }
    unfold invoke. rewrite (run_handleGenerateLook_accepted _ _ _ Hg). cbv zeta.
    destruct (lookOutcome ai s) as [e|img]; [eexists _, _; split; [reflexivity|exact Hpay]|].
    destruct (useThinkingMode s); [|eexists _, _; split; [reflexivity|exact Hpay]].
    destruct (analysisReply ai img _); eexists _, _; (split; [reflexivity|exact Hpay]).
Qed.

Lemma unreadable_file_encodes_empty_witness :
  run (fileToGenerativePart unreadable_png) service_down initialState
  = (inr (InlineDataPart (Some "") (File.type unreadable_png)), initialState, [])
  /\ exists rq rest,
       requests (invoke handleGenerateLook service_analysis_down tryOnState) = rq :: rest
       /\ (Some "", File.type unreadable_png) ∈ inlinePayloads rq.
Proof.
  pose proof (unreadable_file_encodes_empty unreadable_png eq_refl) as [Hrun Hsent].
  split.
  - apply Hrun.
  - apply (Hsent service_analysis_down tryOnState torn_item);
      [|reflexivity|discriminate].
    apply list_elem_of_further, list_elem_of_here.
Defined.

(** C6, the claim as stated, at a concrete input: a PNG file is encoded,
    the encoded data and media type are wrapped again, and the wrapped data
    is edited. The data reaches the image model unchanged, but the request
    declares it as [image/jpeg], not as the file's [image/png]. *)
Lemma edit_declares_jpeg_for_a_png :
  outcome (run (fileToGenerativePart dress_png) service_analysis_down editState)
  = inr (InlineDataPart (Some "iVBORw0KGgo=") "image/png")
  /\ base64ToGenerativePart "iVBORw0KGgo=" (Some "image/png")
     = InlineDataPart (Some "iVBORw0KGgo=") "image/png"
  /\ inlinePayloads
       <$> requests (run (editImage "iVBORw0KGgo=" "add a retro filter")
                       service_analysis_down editState)
     = [[(Some "iVBORw0KGgo=", "image/jpeg")]]
  /\ inlinePayloads
       <$> requests (run (editImage "iVBORw0KGgo=" "add a retro filter")
                       service_analysis_down editState)
     <> [[(Some "iVBORw0KGgo=", "image/png")]].
Proof.
  repeat split; try reflexivity. vm_compute. discriminate.
Qed.

(** C6, amended. For a readable file whose data URL carries the payload
    [d]: encoding yields [d] with the file's media type, wrapping that pair
    again gives the same part, and editing [d], through [editImage] or
    through [handleEditImage] with [d] as the held image, issues one request
    whose only image payload is [d], unchanged, declared as [image/jpeg].
    So the payload is preserved, and the media type is preserved exactly
    when the file's type is [image/jpeg]. *)
Theorem encode_wrap_edit_payload file url d p ai s :
  File.dataURL file = Some url ->
  split "," url !! 1%nat = Some d ->
  outcome (run (fileToGenerativePart file) ai s)
  = inr (InlineDataPart (Some d) (File.type file))
  /\ base64ToGenerativePart d (Some (File.type file))
     = InlineDataPart (Some d) (File.type file)
  /\ inlinePayloads <$> requests (run (editImage d p) ai s) = [[(Some d, "image/jpeg")]]
  /\ (generatedImage s = Some d -> d <> "" -> editPrompt s = p -> p <> "" ->
      inlinePayloads <$> requests (invoke handleEditImage ai s)
      = [[(Some d, "image/jpeg")]])
  /\ ([[(Some d, "image/jpeg")]] = [[(Some d, File.type file)]]
      <-> File.type file = "image/jpeg").
Proof.
  intros Hurl Hd. split; [|split; [|split; [|split]]].
  - unfold fileToGenerativePart. rewrite Hurl, Hd. reflexivity.
  - reflexivity.
  - rewrite run_editImage. reflexivity.
  - intros Himg Hne Hp Hpne.
    assert (Hg : editGuardFails s = false).
    { apply editGuardFails_false. split; [exists d; auto|congruence]. }
    unfold invoke. rewrite (run_handleEditImage_accepted _ _ _ Hg). cbv zeta.
    rewrite Himg. destruct (editOutcome ai s); reflexivity.
  - split; [intros H; congruence|intros ->; reflexivity].
Qed.

Lemma encode_wrap_edit_payload_witness :
  outcome (run (fileToGenerativePart dress_png) service_analysis_down editState)
  = inr (InlineDataPart (Some "iVBORw0KGgo=") (File.type dress_png))
  /\ base64ToGenerativePart "iVBORw0KGgo=" (Some (File.type dress_png))
     = InlineDataPart (Some "iVBORw0KGgo=") (File.type dress_png)
  /\ inlinePayloads
       <$> requests (run (editImage "iVBORw0KGgo=" "add a retro filter")
                       service_analysis_down editState)
     = [[(Some "iVBORw0KGgo=", "image/jpeg")]].
Proof.
  pose proof (encode_wrap_edit_payload dress_png "data:image/png;base64,iVBORw0KGgo="
                "iVBORw0KGgo=" "add a retro filter" service_analysis_down editState
                eq_refl eq_refl) as (H1 & H2 & H3 & _).
  split; [exact H1|split; [exact H2|exact H3]].
Defined.

(** * Further properties of the code *)

(** ** Upload intake: what an upload adds *)

Lemma mapUploadedFiles_cons f rest b :
  mapUploadedFiles (f :: rest) b =
  ((makeUploadedFile f b).1 :: (mapUploadedFiles rest (makeUploadedFile f b).2).1,
   (mapUploadedFiles rest (makeUploadedFile f b).2).2).
Proof.
  simpl. destruct (mapUploadedFiles rest _) as [us b2]. reflexivity.
Qed.

Lemma mapUploadedFiles_app fs1 fs2 b :
  mapUploadedFiles (fs1 ++ fs2) b =
  ((mapUploadedFiles fs1 b).1 ++ (mapUploadedFiles fs2 (mapUploadedFiles fs1 b).2).1,
   (mapUploadedFiles fs2 (mapUploadedFiles fs1 b).2).2).
Proof.
  revert b. induction fs1 as [|f fs1 IH]; intros b.
  - simpl. destruct (mapUploadedFiles fs2 b). reflexivity.
  - rewrite <- app_comm_cons, !mapUploadedFiles_cons, IH. reflexivity.
Qed.

Lemma mapUploadedFiles_lookup files b i :
  (mapUploadedFiles files b).1 !! i = uploadedAt b i <$> files !! i.
Proof.
  revert b i. induction files as [|f files IH]; intros b i; [reflexivity|].
  rewrite mapUploadedFiles_cons. destruct i as [|i]; simpl.
  - unfold uploadedAt. rewrite !Nat.add_0_r. reflexivity.
  - rewrite IH. unfold uploadedAt; simpl. rewrite !Nat.add_succ_r. reflexivity.
Qed.

Lemma mapUploadedFiles_length files b :
  length (mapUploadedFiles files b).1 = length files.
Proof.
  revert b. induction files as [|f files IH]; intros b; [reflexivity|].
  rewrite mapUploadedFiles_cons. simpl. rewrite IH. reflexivity.
Qed.

Lemma mapUploadedFiles_browser files b :
  let b' := (mapUploadedFiles files b).2 in
  clock b' = clock b
  /\ clockReads b' = (clockReads b + length files)%nat
  /\ nextURL b' = (nextURL b + length files)%nat
  /\ forall u, u ∈ liveURLs b' <->
               u ∈ liveURLs b \/ (nextURL b <= u < nextURL b + length files)%nat.
Proof.
  revert b. induction files as [|f files IH]; intros b.
  - simpl. repeat split; auto with lia. intros [H|H]; [exact H|lia].
  - rewrite mapUploadedFiles_cons. cbv zeta. simpl snd.
    destruct (IH (makeUploadedFile f b).2) as (Hc & Hr & Hn & Hl). simpl in Hc, Hr, Hn, Hl.
    simpl. rewrite Hc, Hr, Hn. repeat split; try lia.
    + intros H. apply Hl in H as [H|H]; [|right; lia].
      apply elem_of_union in H as [H|H]; [|left; exact H].
      apply elem_of_singleton in H. right. lia.
    + intros [H|H]; apply Hl.
      * left. apply elem_of_union. right. exact H.
      * destruct (decide (u = nextURL b)) as [->|Hne].
        -- left. apply elem_of_union. left. apply elem_of_singleton. reflexivity.
        -- right. lia.
Qed.

Lemma mapUploadedFiles_files files b :
  map UploadedFile.file (mapUploadedFiles files b).1 = files.
Proof.
  revert b. induction files as [|f files IH]; intros b; [reflexivity|].
  rewrite mapUploadedFiles_cons. simpl. rewrite IH. reflexivity.
Qed.

(** X1. An upload appends one item per selected file, in the order of the
    selection, after the items already there, and changes no other cell.
    The i-th new item holds the i-th file, has the file name and the i-th
    clock reading of the upload as id, and the i-th URL minted as preview;
    that preview is alive afterwards. *)
Theorem handleItemFiles_appends files w :
  let w' := handleItemFiles files w in
  exists new,
    itemImages w'.1 = itemImages w.1 ++ new
    /\ w'.1 = setItemImages w.1 (fun prev => prev ++ new)
    /\ length new = length files
    /\ map UploadedFile.file new = files
    /\ (forall i, new !! i = uploadedAt w.2 i <$> files !! i)
    /\ (forall u, u ∈ new -> UploadedFile.preview u ∈ liveURLs w'.2).
Proof.
  destruct w as [s b]. unfold handleItemFiles. simpl.
  pose proof (mapUploadedFiles_lookup files b) as Hk.
  pose proof (mapUploadedFiles_length files b) as Hlen.
  pose proof (mapUploadedFiles_files files b) as Hfiles.
  pose proof (mapUploadedFiles_browser files b) as (_ & _ & _ & Hl).
  destruct (mapUploadedFiles files b) as [new b']. simpl in *.
  exists new. repeat split; auto.
  intros u Hu. apply list_elem_of_lookup in Hu as [i Hi].
  rewrite Hk in Hi. destruct (files !! i) as [f|] eqn:Hf; [|discriminate].
  apply lookup_lt_Some in Hf. injection Hi as <-. apply Hl. right. simpl. lia.
Qed.

(** X2. Uploading a selection in two successive calls gives the same item
    list and the same browser as uploading it in one call: for the same
    sequence of clock readings and minted URLs, the same ids and previews. *)
Theorem handleItemFiles_app fs1 fs2 w :
  handleItemFiles (fs1 ++ fs2) w = handleItemFiles fs2 (handleItemFiles fs1 w).
Proof.
  destruct w as [s b]. unfold handleItemFiles. simpl.
  rewrite mapUploadedFiles_app.
  destruct (mapUploadedFiles fs1 b) as [n1 b1]. simpl.
  destruct (mapUploadedFiles fs2 b1) as [n2 b2]. simpl.
  unfold setItemImages. simpl. rewrite app_assoc. reflexivity.
Qed.

(** X3. Two files with the same name that are uploaded together while the
    clock does not advance get the same id, although they are different
    items with different previews; removing by that id then removes both of
    them at once. *)
Theorem same_name_same_clock_share_id f1 f2 w :
  File.name f1 = File.name f2 ->
  clock w.2 (clockReads w.2) = clock w.2 (S (clockReads w.2)) ->
  let w1 := handleItemFiles [f1; f2] w in
  let u1 := uploadedAt w.2 0 f1 in
  let u2 := uploadedAt w.2 1 f2 in
  itemImages w1.1 = itemImages w.1 ++ [u1; u2]
  /\ UploadedFile.id u1 = UploadedFile.id u2
  /\ UploadedFile.preview u1 <> UploadedFile.preview u2
  /\ itemImages (removeItem (UploadedFile.id u1) w1).1
     = filter (fun item => UploadedFile.id item ≠ UploadedFile.id u1) (itemImages w.1).
Proof.
  intros Hname Hclock. destruct w as [s b]. simpl in Hclock.
  assert (Hid : UploadedFile.id (uploadedAt b 0 f1) = UploadedFile.id (uploadedAt b 1 f2)).
  { unfold uploadedAt. simpl. rewrite !Nat.add_0_r, !Nat.add_1_r, Hname, Hclock. reflexivity. }
  split; [|split; [exact Hid|split]].
  - unfold handleItemFiles, uploadedAt. simpl. rewrite !Nat.add_0_r, !Nat.add_1_r. reflexivity.
  - unfold uploadedAt. simpl. lia.
  - assert (Hitems : itemImages (handleItemFiles [f1; f2] (s, b)).1
                     = itemImages s ++ [uploadedAt b 0 f1; uploadedAt b 1 f2]).
    { unfold handleItemFiles, uploadedAt. simpl.
      rewrite !Nat.add_0_r, !Nat.add_1_r. reflexivity. }
    unfold removeItem. cbn [fst snd setItemImages itemImages]. rewrite Hitems.
    rewrite filter_app, filter_cons_False, filter_cons_False, filter_nil, app_nil_r;
      [reflexivity| |]; intros Hne; apply Hne; [symmetry; exact Hid|reflexivity].
Qed.

Lemma same_name_same_clock_share_id_witness :
  let w := (initialState, mkBrowser (fun _ => 1700000000000%N) 0 0 ∅) in
  let f2 := File.mk "dress.png" "image/jpeg" (Some "data:image/jpeg;base64,AAAA") in
  let w1 := handleItemFiles [dress_png; f2] w in
  let u1 := uploadedAt w.2 0 dress_png in
  let u2 := uploadedAt w.2 1 f2 in
  itemImages w1.1 = itemImages w.1 ++ [u1; u2]
  /\ UploadedFile.id u1 = UploadedFile.id u2
  /\ UploadedFile.preview u1 <> UploadedFile.preview u2
  /\ itemImages (removeItem (UploadedFile.id u1) w1).1
     = filter (fun item => UploadedFile.id item ≠ UploadedFile.id u1) (itemImages w.1).
Proof.
  apply (same_name_same_clock_share_id dress_png
           (File.mk "dress.png" "image/jpeg" (Some "data:image/jpeg;base64,AAAA"))
           (initialState, mkBrowser (fun _ => 1700000000000%N) 0 0 ∅));
    reflexivity.
Defined.

Lemma removeItem_items id w :
  itemImages (removeItem id w).1
  = filter (fun item => UploadedFile.id item ≠ id) (itemImages w.1).
Proof. reflexivity. Qed.

Lemma removeItem_ext id1 id2 w1 w2 :
  itemImages (removeItem id1 w1).1 = itemImages (removeItem id2 w2).1 ->
  setItemImages w1.1 (fun _ => []) = setItemImages w2.1 (fun _ => []) ->
  w1.2 = w2.2 ->
  removeItem id1 w1 = removeItem id2 w2.
Proof.
  destruct w1 as [s1 b1], w2 as [s2 b2]. unfold removeItem, setItemImages. simpl.
  intros Hitems Hrest ->. injection Hrest as -> -> -> -> -> -> -> -> -> -> -> ->.
  rewrite Hitems. reflexivity.
Qed.

(** X4. Removing by id is idempotent, removals by two ids commute, and
    after a removal no item with that id is left. *)
Theorem removeItem_idempotent_commutes a b w :
  removeItem a (removeItem a w) = removeItem a w
  /\ removeItem a (removeItem b w) = removeItem b (removeItem a w)
  /\ Forall (fun item => UploadedFile.id item ≠ a) (itemImages (removeItem a w).1).
Proof.
  split; [|split].
  - apply removeItem_ext; try reflexivity.
    rewrite !removeItem_items. apply list_filter_filter_l. auto.
  - apply removeItem_ext; try reflexivity.
    rewrite !removeItem_items, !list_filter_filter. apply list_filter_iff. tauto.
  - rewrite removeItem_items. apply Forall_forall. intros item Hin.
    apply list_elem_of_filter in Hin. tauto.
Qed.

(** X5. No upload releases a preview: every URL alive before
    [handleItemFiles] or [handleUserFile] is alive after it. In particular
    the preview of a reference photo that [handleUserFile] replaces stays
    alive although no item refers to it any more. *)
Theorem uploads_never_release files w :
  liveURLs w.2 ⊆ liveURLs (handleItemFiles files w).2
  /\ liveURLs w.2 ⊆ liveURLs (handleUserFile files w).2
  /\ (forall old, userImage w.1 = Some old ->
        UploadedFile.preview old ∈ liveURLs w.2 ->
        UploadedFile.preview old ∈ liveURLs (handleUserFile files w).2).
Proof.
  assert (Huser : liveURLs w.2 ⊆ liveURLs (handleUserFile files w).2).
  { destruct w as [s b], files as [|f rest]; simpl; set_solver. }
  split; [|split; [exact Huser|]].
  - destruct w as [s b]. unfold handleItemFiles. simpl.
    pose proof (mapUploadedFiles_browser files b) as (_ & _ & _ & Hl).
    destruct (mapUploadedFiles files b) as [new b']. simpl in *.
    intros u Hu. apply Hl. left. exact Hu.
  - intros old _ Hlive. apply Huser, Hlive.
Qed.

(** ** The submit handlers as a whole *)

(** X6. No submit handler lets an exception escape, whatever the service
    does, and none leaves the loading flag up: after a submit that passed
    its guard the flag is down, after one that the guard stopped it is as
    before. *)
Theorem submit_handlers_never_throw ai s :
  (outcome (invoke handleGenerateLook ai s) = inr tt
   /\ isLoading (finalState (invoke handleGenerateLook ai s))
      = if lookGuardFails s then isLoading s else false)
  /\ (outcome (invoke handleGenerateImage ai s) = inr tt
      /\ isLoading (finalState (invoke handleGenerateImage ai s))
         = if imageGuardFails s then isLoading s else false)
  /\ (outcome (invoke handleEditImage ai s) = inr tt
      /\ isLoading (finalState (invoke handleEditImage ai s))
         = if editGuardFails s then isLoading s else false).
Proof.
  unfold invoke. split; [|split].
  - destruct (lookGuardFails s) eqn:Hg.
    + rewrite (run_handleGenerateLook_rejected _ _ _ Hg). split; reflexivity.
    + rewrite (run_handleGenerateLook_accepted _ _ _ Hg). cbv zeta.
      destruct (lookOutcome ai s); [split; reflexivity|].
      destruct (useThinkingMode s); [|split; reflexivity].
      destruct (analysisReply ai _ _); split; reflexivity.
  - destruct (imageGuardFails s) eqn:Hg.
    + rewrite (run_handleGenerateImage_rejected _ _ _ Hg). split; reflexivity.
    + rewrite (run_handleGenerateImage_accepted _ _ _ Hg). cbv zeta.
      destruct (imageOutcome ai s); split; reflexivity.
  - destruct (editGuardFails s) eqn:Hg.
    + rewrite (run_handleEditImage_rejected _ _ _ Hg). split; reflexivity.
    + rewrite (run_handleEditImage_accepted _ _ _ Hg). cbv zeta.
      destruct (editOutcome ai s); split; reflexivity.
Qed.

(** X7. How many requests a submit issues: none when its guard stops it;
    otherwise exactly one for a generation and for an edit, and for a try-on
    one, or two when the analysis option is set and the image call yielded
    an image. *)
Theorem submit_request_counts ai s :
  length (requests (invoke handleGenerateLook ai s))
  = (if lookGuardFails s then 0
     else match lookOutcome ai s with
          | inl _ => 1
          | inr _ => if useThinkingMode s then 2 else 1
          end)%nat
  /\ length (requests (invoke handleGenerateImage ai s))
     = (if imageGuardFails s then 0 else 1)%nat
  /\ length (requests (invoke handleEditImage ai s))
     = (if editGuardFails s then 0 else 1)%nat.
Proof.
  unfold invoke. split; [|split].
  - destruct (lookGuardFails s) eqn:Hg.
    + rewrite (run_handleGenerateLook_rejected _ _ _ Hg). reflexivity.
    + rewrite (run_handleGenerateLook_accepted _ _ _ Hg). cbv zeta.
      destruct (lookOutcome ai s); [reflexivity|].
      destruct (useThinkingMode s); [|reflexivity].
      destruct (analysisReply ai _ _); reflexivity.
  - destruct (imageGuardFails s) eqn:Hg.
    + rewrite (run_handleGenerateImage_rejected _ _ _ Hg). reflexivity.
    + rewrite (run_handleGenerateImage_accepted _ _ _ Hg). cbv zeta.
      destruct (imageOutcome ai s); reflexivity.
  - destruct (editGuardFails s) eqn:Hg.
    + rewrite (run_handleEditImage_rejected _ _ _ Hg). reflexivity.
    + rewrite (run_handleEditImage_accepted _ _ _ Hg). cbv zeta.
      destruct (editOutcome ai s); reflexivity.
Qed.

(** X8. A submit never touches what the user entered: the tab, the items,
    the reference photo, the scene text, the analysis option, the prompt,
    the aspect ratio and the zoom flag are the same after any of the three
    handlers, whatever the service does. The edit instruction is untouched
    by a try-on and by a generation. *)
Theorem submit_handlers_keep_inputs ai s :
  inputsOf (finalState (invoke handleGenerateLook ai s)) = inputsOf s
  /\ editPrompt (finalState (invoke handleGenerateLook ai s)) = editPrompt s
  /\ inputsOf (finalState (invoke handleGenerateImage ai s)) = inputsOf s
  /\ editPrompt (finalState (invoke handleGenerateImage ai s)) = editPrompt s
  /\ inputsOf (finalState (invoke handleEditImage ai s)) = inputsOf s.
Proof.
  unfold invoke.
  assert (Hlook : inputsOf (finalState (run (handleGenerateLook s) ai s)) = inputsOf s
                  /\ editPrompt (finalState (run (handleGenerateLook s) ai s)) = editPrompt s).
  { destruct (lookGuardFails s) eqn:Hg.
    - rewrite (run_handleGenerateLook_rejected _ _ _ Hg). split; reflexivity.
    - rewrite (run_handleGenerateLook_accepted _ _ _ Hg). cbv zeta.
      destruct (lookOutcome ai s); [split; reflexivity|].
      destruct (useThinkingMode s); [|split; reflexivity].
      destruct (analysisReply ai _ _); split; reflexivity. }
  assert (Himage : inputsOf (finalState (run (handleGenerateImage s) ai s)) = inputsOf s
                   /\ editPrompt (finalState (run (handleGenerateImage s) ai s))
                      = editPrompt s).
  { destruct (imageGuardFails s) eqn:Hg.
    - rewrite (run_handleGenerateImage_rejected _ _ _ Hg). split; reflexivity.
    - rewrite (run_handleGenerateImage_accepted _ _ _ Hg). cbv zeta.
      destruct (imageOutcome ai s); split; reflexivity. }
  destruct Hlook as [H1 H2], Himage as [H3 H4].
  repeat (split; [assumption|]).
  destruct (editGuardFails s) eqn:Hg.
  - rewrite (run_handleEditImage_rejected _ _ _ Hg). reflexivity.
  - rewrite (run_handleEditImage_accepted _ _ _ Hg). cbv zeta.
    destruct (editOutcome ai s); reflexivity.
Qed.

(** X9. After a submit that passed its guard, the error cell holds the
    message of the call that failed and is empty exactly when every call the
    handler made succeeded; for a try-on the analysis call counts only when
    the analysis option is set. *)
Theorem error_cell_after_submit ai s :
  (lookGuardFails s = false ->
   error (finalState (invoke handleGenerateLook ai s))
   = match lookOutcome ai s with
     | inl e => Some (errorMessage e)
     | inr img =>
         if useThinkingMode s then
           match analysisReply ai img (sceneDescription s) with
           | inl e => Some (errorMessage e)
           | inr _ => None
           end
         else None
     end)
  /\ (imageGuardFails s = false ->
      error (finalState (invoke handleGenerateImage ai s))
      = match imageOutcome ai s with inl e => Some (errorMessage e) | inr _ => None end)
  /\ (editGuardFails s = false ->
      error (finalState (invoke handleEditImage ai s))
      = match editOutcome ai s with inl e => Some (errorMessage e) | inr _ => None end).
Proof.
  unfold invoke. split; [|split]; intros Hg.
  - rewrite (run_handleGenerateLook_accepted _ _ _ Hg). cbv zeta.
    destruct (lookOutcome ai s); [reflexivity|].
    destruct (useThinkingMode s); [|reflexivity].
    destruct (analysisReply ai _ _); reflexivity.
  - rewrite (run_handleGenerateImage_accepted _ _ _ Hg). cbv zeta.
    destruct (imageOutcome ai s); reflexivity.
  - rewrite (run_handleEditImage_accepted _ _ _ Hg). cbv zeta.
    destruct (editOutcome ai s); reflexivity.
Qed.

Lemma error_cell_after_submit_witness :
  error (finalState (invoke handleGenerateLook service_analysis_down tryOnState))
  = Some "429 quota exceeded"
  /\ error (finalState (invoke handleGenerateImage service_analysis_down inFlightState))
     = None
  /\ error (finalState (invoke handleEditImage service_down editState))
     = Some "503 unavailable".
Proof.
  pose proof (error_cell_after_submit service_analysis_down tryOnState) as (H1 & _ & _).
  pose proof (error_cell_after_submit service_analysis_down inFlightState) as (_ & H2 & _).
  pose proof (error_cell_after_submit service_down editState) as (_ & _ & H3).
  split; [apply H1; reflexivity|split; [apply H2; reflexivity|apply H3; reflexivity]].
Defined.

(** ** Successful submits *)

(** X10. A try-on without the analysis option whose image call yields an
    image issues the image request and nothing else; the image is stored,
    the analysis stays empty, no error is set and the loading flag is down,
    so for a non-empty image the output area shows that image alone. *)
Theorem tryon_without_analysis ai s img :
  itemImages s <> [] -> sceneDescription s <> "" ->
  useThinkingMode s = false ->
  lookOutcome ai s = inr img ->
  let r := invoke handleGenerateLook ai s in
  finalState r
  = setIsLoading
      (setError (setAnalysisResult (setGeneratedImage s (Some img)) "") None) false
  /\ requests r = [lookRequest (lookFiles s) (lookUser s) (sceneDescription s)]
  /\ (img <> "" ->
      requestStatus (finalState r) = Succeeded
      /\ renderOutputArea (finalState r) = [GeneratedImagePanel img]
      /\ analysisPanelShown (finalState r) = false).
Proof.
  intros Hitems Hscene Hthink Himg r.
  assert (Hg : lookGuardFails s = false) by (apply lookGuardFails_false; auto).
  subst r. unfold invoke. rewrite (run_handleGenerateLook_accepted _ _ _ Hg).
  cbv zeta. rewrite Himg, Hthink.
  unfold finalState, requests, requestStatus, renderOutputArea, analysisPanelShown; simpl.
  split; [reflexivity|split; [reflexivity|]].
  intros Hi. apply truthy_true in Hi. rewrite Hi. repeat split.
Qed.

Lemma tryon_without_analysis_witness :
  let s := setUseThinkingMode tryOnState false in
  let r := invoke handleGenerateLook service_analysis_down s in
  finalState r
  = setIsLoading
      (setError (setAnalysisResult (setGeneratedImage s (Some "SU1H")) "") None) false
  /\ requests r = [lookRequest (lookFiles s) (lookUser s) (sceneDescription s)]
  /\ ("SU1H" <> "" ->
      requestStatus (finalState r) = Succeeded
      /\ renderOutputArea (finalState r) = [GeneratedImagePanel "SU1H"]
      /\ analysisPanelShown (finalState r) = false).
Proof.
  apply (tryon_without_analysis service_analysis_down
           (setUseThinkingMode tryOnState false) "SU1H");
    [discriminate|discriminate|reflexivity|reflexivity].
Defined.

(** X11. A try-on with the analysis option whose two calls both succeed
    issues the image request and then the analysis request for that image,
    stores the image and, as analysis, the text of the analysis answer,
    with no error and the loading flag down. *)
Theorem tryon_with_analysis ai s img response :
  itemImages s <> [] -> sceneDescription s <> "" ->
  useThinkingMode s = true ->
  lookOutcome ai s = inr img ->
  analysisReply ai img (sceneDescription s) = inr response ->
  let r := invoke handleGenerateLook ai s in
  finalState r
  = setIsLoading
      (setError
         (setAnalysisResult (setGeneratedImage s (Some img))
            (GenerateContentResponse.text response)) None) false
  /\ requests r = [lookRequest (lookFiles s) (lookUser s) (sceneDescription s);
                   analysisRequest img (sceneDescription s)].
Proof.
  intros Hitems Hscene Hthink Himg Hana r.
  assert (Hg : lookGuardFails s = false) by (apply lookGuardFails_false; auto).
  subst r. unfold invoke. rewrite (run_handleGenerateLook_accepted _ _ _ Hg).
  cbv zeta. rewrite Himg, Hthink, Hana. split; reflexivity.
Qed.

Lemma tryon_with_analysis_witness :
  let ai := mkUpstream
              (fun md ps c =>
                 inr (GenerateContentResponse.mk
                        [[ResponsePart.mk (Some (Blob.mk "SU1H" "image/png"))]]
                        "## Style"))
              (fun md p n a o => inl OtherValue) in
  let r := invoke handleGenerateLook ai tryOnState in
  finalState r
  = setIsLoading
      (setError (setAnalysisResult (setGeneratedImage tryOnState (Some "SU1H")) "## Style")
         None) false
  /\ requests r = [lookRequest (lookFiles tryOnState) (lookUser tryOnState)
                     (sceneDescription tryOnState);
                   analysisRequest "SU1H" (sceneDescription tryOnState)].
Proof.
  apply (tryon_with_analysis
           (mkUpstream
              (fun md ps c =>
                 inr (GenerateContentResponse.mk
                        [[ResponsePart.mk (Some (Blob.mk "SU1H" "image/png"))]]
                        "## Style"))
              (fun md p n a o => inl OtherValue))
           tryOnState "SU1H"
           (GenerateContentResponse.mk
              [[ResponsePart.mk (Some (Blob.mk "SU1H" "image/png"))]] "## Style"));
    [discriminate|discriminate|reflexivity|reflexivity|reflexivity].
Defined.

(** X12. A generation submitted with an empty prompt stops at the guard:
    the validation message is set, no request is issued and every other
    cell, the held image included, is as before. *)
Theorem generate_validation_error ai s :
  generatePrompt s = "" ->
  invoke handleGenerateImage ai s
  = (inr tt, setError s (Some "Please enter a prompt to generate an image."), []).
Proof.
  intros Hp. unfold invoke. apply run_handleGenerateImage_rejected.
  unfold imageGuardFails. rewrite Hp. reflexivity.
Qed.

Lemma generate_validation_error_witness :
  invoke handleGenerateImage service_down editState
  = (inr tt, setError editState (Some "Please enter a prompt to generate an image."), []).
Proof. apply (generate_validation_error service_down editState). reflexivity. Defined.

(** X13. A generation with a prompt issues exactly one text-to-image
    request, for one JPEG image, with the prompt and the aspect ratio of
    the state. When the answer's first image has non-empty bytes, those
    bytes become the held image (further images in the answer are ignored),
    the analysis is emptied, no error is set and the loading flag is down. *)
Theorem generate_success ai s response bytes more :
  generatePrompt s <> "" ->
  imageReply ai (generatePrompt s) (aspectRatio s) = inr response ->
  GenerateImagesResponse.generatedImages response = bytes :: more ->
  bytes <> "" ->
  let r := invoke handleGenerateImage ai s in
  finalState r
  = setIsLoading
      (setError (setAnalysisResult (setGeneratedImage s (Some bytes)) "") None) false
  /\ requests r
     = [generateImages "imagen-4.0-generate-001" (generatePrompt s) 1 (aspectRatio s)
          "image/jpeg"]
  /\ requestStatus (finalState r) = Succeeded.
Proof.
  intros Hp Hreply Himgs Hb r.
  assert (Hg : imageGuardFails s = false).
  { unfold imageGuardFails. apply negb_false_iff, truthy_true, Hp. }
  subst r. unfold invoke. rewrite (run_handleGenerateImage_accepted _ _ _ Hg).
  cbv zeta. unfold imageOutcome. rewrite Hreply. simpl. rewrite Himgs.
  apply truthy_true in Hb. rewrite Hb.
  unfold finalState, requests, requestStatus; simpl. rewrite Hb. repeat split.
Qed.

Lemma generate_success_witness :
  let r := invoke handleGenerateImage service_analysis_down inFlightState in
  finalState r
  = setIsLoading
      (setError (setAnalysisResult (setGeneratedImage inFlightState (Some "R0VO")) "") None)
      false
  /\ requests r
     = [generateImages "imagen-4.0-generate-001" (generatePrompt inFlightState) 1
          (aspectRatio inFlightState) "image/jpeg"]
  /\ requestStatus (finalState r) = Succeeded.
Proof.
  apply (generate_success service_analysis_down inFlightState
           (GenerateImagesResponse.mk ["R0VO"]) "R0VO" []);
    [discriminate|reflexivity|reflexivity|discriminate].
Defined.

(** X14. A generation whose answer carries an empty first image, or no
    image at all, fails: in the first case the error cell holds "Image
    generation failed."; in the second an error is set as well (the one
    raised by reading the missing entry). In both the held image has been
    wiped by the submit and the loading flag is down. *)
Theorem generate_without_image_bytes ai s response :
  generatePrompt s <> "" ->
  imageReply ai (generatePrompt s) (aspectRatio s) = inr response ->
  let r := invoke handleGenerateImage ai s in
  (forall more, GenerateImagesResponse.generatedImages response = "" :: more ->
     finalState r
     = setIsLoading
         (setError (setAnalysisResult (setGeneratedImage s None) "")
            (Some "Image generation failed.")) false)
  /\ (GenerateImagesResponse.generatedImages response = [] ->
      generatedImage (finalState r) = None
      /\ is_Some (error (finalState r))
      /\ isLoading (finalState r) = false).
Proof.
  intros Hp Hreply r.
  assert (Hg : imageGuardFails s = false).
  { unfold imageGuardFails. apply negb_false_iff, truthy_true, Hp. }
  subst r. unfold invoke. rewrite (run_handleGenerateImage_accepted _ _ _ Hg).
  cbv zeta. unfold imageOutcome. rewrite Hreply. simpl.
  split; [intros more Himgs|intros Himgs]; rewrite Himgs; [reflexivity|].
  repeat split. eexists. reflexivity.
Qed.

Lemma generate_without_image_bytes_witness :
  let ai := mkUpstream (fun md ps c => inl OtherValue)
              (fun md p n a o => inr (GenerateImagesResponse.mk [""; "R0VO"])) in
  finalState (invoke handleGenerateImage ai inFlightState)
  = setIsLoading
      (setError (setAnalysisResult (setGeneratedImage inFlightState None) "")
         (Some "Image generation failed.")) false.
Proof.
  pose proof (generate_without_image_bytes
                (mkUpstream (fun md ps c => inl OtherValue)
                   (fun md p n a o => inr (GenerateImagesResponse.mk [""; "R0VO"])))
                inFlightState (GenerateImagesResponse.mk [""; "R0VO"])
                ltac:(discriminate) eq_refl) as [Hempty _].
  apply (Hempty ["R0VO"]). reflexivity.
Defined.

(** X15. After an edit that succeeded the edit instruction is empty, so
    submitting the edit again at once stops at the guard: it sets the
    validation message and issues no request, whatever the service. *)
Theorem edit_twice_needs_new_instruction ai ai' s img :
  editGuardFails s = false ->
  editOutcome ai s = inr img ->
  let s1 := finalState (invoke handleEditImage ai s) in
  editPrompt s1 = ""
  /\ invoke handleEditImage ai' s1
     = (inr tt,
        setError s1 (Some "Please generate an image first and enter an edit prompt."),
        []).
Proof.
  intros Hg Hi s1.
  assert (Hp : editPrompt s1 = "").
  { subst s1. unfold invoke. rewrite (run_handleEditImage_accepted _ _ _ Hg).
    cbv zeta. rewrite Hi. reflexivity. }
  split; [exact Hp|].
  unfold invoke. apply run_handleEditImage_rejected.
  apply editGuardFails_true. right. right. exact Hp.
Qed.

Lemma edit_twice_needs_new_instruction_witness :
  let s1 := finalState (invoke handleEditImage service_analysis_down editState) in
  editPrompt s1 = ""
  /\ invoke handleEditImage service_analysis_down s1
     = (inr tt,
        setError s1 (Some "Please generate an image first and enter an edit prompt."),
        []).
Proof.
  apply (edit_twice_needs_new_instruction service_analysis_down service_analysis_down
           editState "SU1H"); reflexivity.
Defined.

(** ** Start over, and what the output area shows *)

(** X16. After "Start Over" the inputs the guards need are gone: a try-on
    or an edit submitted right after [resetTryOn], and a generation or an
    edit submitted right after [resetGenerate], stops at its guard and
    issues no request. *)
Theorem reset_then_submit_is_rejected ai s :
  invoke handleGenerateLook ai (resetTryOn s)
  = (inr tt,
     setError (resetTryOn s)
       (Some "Please upload at least one item and describe the scene."), [])
  /\ invoke handleEditImage ai (resetTryOn s)
     = (inr tt,
        setError (resetTryOn s)
          (Some "Please generate an image first and enter an edit prompt."), [])
  /\ invoke handleGenerateImage ai (resetGenerate s)
     = (inr tt,
        setError (resetGenerate s) (Some "Please enter a prompt to generate an image."), [])
  /\ invoke handleEditImage ai (resetGenerate s)
     = (inr tt,
        setError (resetGenerate s)
          (Some "Please generate an image first and enter an edit prompt."), []).
Proof.
  unfold invoke.
  rewrite (run_handleGenerateLook_rejected (resetTryOn s)) by reflexivity.
  rewrite (run_handleEditImage_rejected (resetTryOn s)) by reflexivity.
  rewrite (run_handleGenerateImage_rejected (resetGenerate s)) by reflexivity.
  rewrite (run_handleEditImage_rejected (resetGenerate s)) by reflexivity.
  repeat split.
Qed.

(** X17. What "Start Over" leaves on screen. After either reset the output
    square shows the spinner if a request is in flight and the placeholder
    otherwise, and the "Start Over" button itself is gone. [resetTryOn]
    also hides the analysis card; [resetGenerate] does not clear the
    analysis, so a card shown before is still shown. Neither reset lowers
    the loading flag, and each leaves the other tab's inputs and the edit
    instruction alone. *)
Theorem start_over_view s :
  renderOutputArea (resetTryOn s) = (if isLoading s then [LoadingSpinner] else [Placeholder])
  /\ renderOutputArea (resetGenerate s)
     = (if isLoading s then [LoadingSpinner] else [Placeholder])
  /\ startOverShown (resetTryOn s) = false
  /\ startOverShown (resetGenerate s) = false
  /\ analysisPanelShown (resetTryOn s) = false
  /\ analysisPanelShown (resetGenerate s) = analysisPanelShown s
  /\ isLoading (resetTryOn s) = isLoading s
  /\ isLoading (resetGenerate s) = isLoading s
  /\ (generatePrompt (resetTryOn s), aspectRatio (resetTryOn s), editPrompt (resetTryOn s))
     = (generatePrompt s, aspectRatio s, editPrompt s)
  /\ (itemImages (resetGenerate s), userImage (resetGenerate s),
      sceneDescription (resetGenerate s), useThinkingMode (resetGenerate s),
      editPrompt (resetGenerate s))
     = (itemImages s, userImage s, sceneDescription s, useThinkingMode s, editPrompt s).
Proof.
  unfold renderOutputArea, startOverShown, analysisPanelShown. simpl.
  destruct (isLoading s); repeat split.
Qed.

(** Membership in a short, explicit list of panels. *)
Ltac panel_membership :=
  repeat (split || intro);
  rewrite ?elem_of_cons, ?elem_of_nil in *;
  intuition (try discriminate; try congruence).

(** X18. The output square is never empty and its panels exclude each
    other as follows: the spinner is there exactly while loading; the error
    panel and the placeholder only when not loading; the placeholder only
    when nothing else is shown; and an error panel can stand next to the
    image, which is shown whenever a non-empty image is held. *)
Theorem renderOutputArea_panels c :
  renderOutputArea c <> []
  /\ (LoadingSpinner ∈ renderOutputArea c <-> isLoading c = true)
  /\ (forall m, ErrorPanel m ∈ renderOutputArea c ->
        isLoading c = false /\ error c = Some m /\ m <> "")
  /\ (Placeholder ∈ renderOutputArea c -> renderOutputArea c = [Placeholder])
  /\ (forall img, GeneratedImagePanel img ∈ renderOutputArea c <->
        generatedImage c = Some img /\ img <> "").
Proof.
  unfold renderOutputArea.
  destruct (isLoading c), (error c) as [[|a m]|], (generatedImage c) as [[|a' img]|];
    simpl; (split; [discriminate|]); panel_membership.
Qed.

(** X19. [handleDownloadImage] and the image on screen: whenever the
    output square shows an image (the download button lives in that panel)
    the handler builds a link whose address is the JPEG data URL of exactly
    that image and whose file name carries the clock reading; when no image
    is held it builds nothing and does not read the clock. *)
Theorem download_matches_display c b :
  (forall img, GeneratedImagePanel img ∈ renderOutputArea c ->
     handleDownloadImage c b
     = (Some (Link.mk ("data:image/jpeg;base64," +:+ img)
                ("stylemix-studio-" +:+ pretty (clock b (clockReads b)) +:+ ".jpeg")),
        (Date_now b).2))
  /\ ((forall img, GeneratedImagePanel img ∉ renderOutputArea c) ->
      handleDownloadImage c b = (None, b)).
Proof.
  unfold renderOutputArea, handleDownloadImage.
  destruct (isLoading c), (error c) as [[|a m]|], (generatedImage c) as [[|a' img]|];
    simpl; split; try reflexivity;
    try (intros img0 Hin; panel_membership; subst; reflexivity);
    intros Hnone; exfalso; apply (Hnone (String a' img)); panel_membership.
Qed.

(** ** The service functions *)

Lemma firstInlineData_skips pre part post :
  Forall (fun p => ResponsePart.inlineData p = None) pre ->
  firstInlineData (pre ++ part :: post) = firstInlineData (part :: post).
Proof.
  induction 1 as [|p pre Hp _ IH]; [reflexivity|].
  simpl. rewrite Hp. exact IH.
Qed.

(** X20. [generateLook] and [editImage] resolve to the data of the first
    part of the first candidate that carries inline data: text parts before
    it are skipped, and whatever follows it (further images, further
    candidates) is ignored. *)
Theorem first_inline_part_is_returned ai s response pre blob post rest :
  GenerateContentResponse.candidates response
  = (pre ++ ResponsePart.mk (Some blob) :: post) :: rest ->
  Forall (fun p => ResponsePart.inlineData p = None) pre ->
  (forall items user scene,
     lookReply ai items user scene = inr response ->
     outcome (run (generateLook items user scene) ai s) = inr (Blob.data blob))
  /\ (forall img p,
        editReply ai img p = inr response ->
        outcome (run (editImage img p) ai s) = inr (Blob.data blob)).
Proof.
  intros Hc Hpre. split.
  - intros items user scene Hreply. rewrite run_generateLook, Hreply.
    unfold outcome. simpl. rewrite Hc, (firstInlineData_skips _ _ _ Hpre). reflexivity.
  - intros img p Hreply. rewrite run_editImage, Hreply.
    unfold outcome. simpl. rewrite Hc, (firstInlineData_skips _ _ _ Hpre). reflexivity.
Qed.

Lemma first_inline_part_is_returned_witness :
  outcome (run (generateLook [dress_png] None "sunset park") service_analysis_down
             initialState) = inr "SU1H"
  /\ outcome (run (editImage "T0xE" "add a retro filter") service_analysis_down
                initialState) = inr "SU1H".
Proof.
  pose proof (first_inline_part_is_returned service_analysis_down initialState
                (GenerateContentResponse.mk
                   [[ResponsePart.mk None; ResponsePart.mk (Some (Blob.mk "SU1H" "image/png"))]]
                   "")
                [ResponsePart.mk None] (Blob.mk "SU1H" "image/png") [] []
                eq_refl ltac:(repeat constructor)) as [Hlook Hedit].
  split.
  - apply (Hlook [dress_png] None "sunset park"). reflexivity.
  - apply (Hedit "T0xE" "add a retro filter"). reflexivity.
Defined.

(** X21. Whatever the service answers, [generateLook] issues exactly one
    request, to the image model with the image modality, and changes no
    state. The request starts with the prompt text, which quotes the scene
    description verbatim and says whether the person is the one of the user
    photo or an AI-generated model; then come, in order, the encoded user
    photo when there is one and every encoded item in the order given, each
    with its file's declared media type. *)
Theorem generateLook_request_shape items user scene ai s :
  finalState (run (generateLook items user scene) ai s) = s
  /\ requests (run (generateLook items user scene) ai s)
     = [generateContent "gemini-2.5-flash-image"
          (TextPart
             (("Generate a photorealistic image of a person in the following scene: "
                 +:+ dquote +:+ scene +:+ dquote +:+ ". ")
              +:+ match user with
                  | Some _ =>
                      "The person in the image should be the person from the provided user photo, wearing the following items. Blend the items naturally onto the person."
                  | None =>
                      "The person should be an AI-generated model, wearing the following items. The items should look natural on the model."
                  end)
           :: (encodedPart <$> option_list user) ++ (encodedPart <$> items))
          (responseModalities [IMAGE])]
  /\ inlinePayloads <$> requests (run (generateLook items user scene) ai s)
     = [omap (fun f => inlinePayload (encodedPart f)) (option_list user ++ items)]
  /\ length (omap (fun f => inlinePayload (encodedPart f)) (option_list user ++ items))
     = (length (option_list user) + length items)%nat.
Proof.
  rewrite run_generateLook. split; [reflexivity|].
  assert (Hpay : forall fs : list File.t,
            omap inlinePayload (map encodedPart fs)
            = omap (fun f => inlinePayload (encodedPart f)) fs).
  { induction fs as [|f fs IH]; [reflexivity|]. simpl. f_equal. exact IH. }
  assert (Hlen : forall fs : list File.t,
            length (omap (fun f => inlinePayload (encodedPart f)) fs) = length fs).
  { induction fs as [|f fs IH]; [reflexivity|]. simpl. f_equal. exact IH. }
  split; [|split].
  - destruct user; reflexivity.
  - unfold requests, lookRequest, lookParts, inlinePayloads. simpl.
    rewrite !omap_app, Hpay. destruct user; reflexivity.
  - rewrite Hlen, length_app. reflexivity.
Qed.

(** ** Encoding a file *)

Lemma split_no_separator c s : occurs c s = false -> split c s = [s].
Proof.
  induction s as [|a s IH]; simpl; [reflexivity|].
  intros H. apply orb_false_iff in H as [Ha Hs]. rewrite Ha, (IH Hs). reflexivity.
Qed.

Lemma split_at_first_separator c header rest :
  occurs c header = false ->
  split c (header +:+ String c rest) = header :: split c rest.
Proof.
  induction header as [|a header IH]; simpl.
  - intros _. rewrite Ascii.eqb_refl. reflexivity.
  - intros H. apply orb_false_iff in H as [Ha Hs]. rewrite Ha, (IH Hs). reflexivity.
Qed.

(** X22. For a file that reads as a data URL, that is a header without a
    comma, a comma, and a payload without a comma (as base64 is),
    [fileToGenerativePart] resolves to exactly that payload, paired with the
    media type the file declares (whatever the header says), without any
    request or state change. *)
Theorem fileToGenerativePart_payload file header payload ai s :
  File.dataURL file = Some (header +:+ "," +:+ payload) ->
  occurs "," header = false ->
  occurs "," payload = false ->
  run (fileToGenerativePart file) ai s
  = (inr (InlineDataPart (Some payload) (File.type file)), s, []).
Proof.
  intros Hurl Hh Hp. unfold fileToGenerativePart. rewrite Hurl.
  change ("," +:+ payload) with (String "," payload).
  rewrite (split_at_first_separator _ _ _ Hh), (split_no_separator _ _ Hp). reflexivity.
Qed.

Lemma fileToGenerativePart_payload_witness :
  run (fileToGenerativePart dress_png) service_down initialState
  = (inr (InlineDataPart (Some "iVBORw0KGgo=") (File.type dress_png)), initialState, []).
Proof.
  apply (fileToGenerativePart_payload dress_png "data:image/png;base64" "iVBORw0KGgo=");
    reflexivity.
Defined.

(** X23. When the reader's result is a string without any comma (such as
    the bare "data:" some browsers give for an empty file), the second
    piece of the split does not exist: [fileToGenerativePart] still does not
    fail, and resolves to a part whose data is undefined. *)
Theorem fileToGenerativePart_without_comma file url ai s :
  File.dataURL file = Some url ->
  occurs "," url = false ->
  run (fileToGenerativePart file) ai s
  = (inr (InlineDataPart None (File.type file)), s, []).
Proof.
  intros Hurl Hc. unfold fileToGenerativePart.
  rewrite Hurl, (split_no_separator _ _ Hc). reflexivity.
Qed.

Lemma fileToGenerativePart_without_comma_witness :
  run (fileToGenerativePart (File.mk "empty.png" "image/png" (Some "data:")))
    service_down initialState
  = (inr (InlineDataPart None "image/png"), initialState, []).
Proof.
  apply (fileToGenerativePart_without_comma
           (File.mk "empty.png" "image/png" (Some "data:")) "data:");
    reflexivity.
Defined.

(** ** The two small components *)

(** X24. The loading spinner cycles through its six messages in order:
    after n firings of the interval the closure's index is n modulo 6 and
    the message shown is the entry at that index, which always exists; so
    the message is never undefined and the display repeats every six
    firings. *)
Theorem spinner_cycles n :
  Spinner.ticks n Spinner.initial
  = Spinner.mk (n mod 6) (Spinner.messages !! (n mod 6)%nat)
  /\ is_Some (Spinner.message (Spinner.ticks n Spinner.initial))
  /\ Spinner.ticks (n + 6) Spinner.initial = Spinner.ticks n Spinner.initial.
Proof.
  assert (H : forall k, Spinner.ticks k Spinner.initial
                        = Spinner.mk (k mod 6) (Spinner.messages !! (k mod 6)%nat)).
  { induction k as [|k IH]; [reflexivity|].
    change (Spinner.ticks (S k) Spinner.initial)
      with (Spinner.tick (Spinner.ticks k Spinner.initial)).
    rewrite IH. unfold Spinner.tick.
    change (length Spinner.messages) with 6%nat.
    cbn [Spinner.index].
    replace ((k mod 6 + 1) mod 6)%nat with (S k mod 6)%nat; [reflexivity|].
    rewrite Nat.Div0.add_mod_idemp_l. f_equal. lia. }
  split; [apply H|split].
  - rewrite H. cbn [Spinner.message]. apply lookup_lt_is_Some.
    change (length Spinner.messages) with 6%nat. apply Nat.mod_upper_bound. lia.
  - rewrite !H. replace ((n + 6) mod 6)%nat with (n mod 6)%nat; [reflexivity|].
    symmetry. exact (Nat.Div0.mod_add n 1 6).
Qed.

Lemma handleItemFiles_length files w :
  length (itemImages (handleItemFiles files w).1)
  = (length (itemImages w.1) + length files)%nat.
Proof.
  destruct w as [s b]. unfold handleItemFiles. simpl.
  pose proof (mapUploadedFiles_length files b) as Hlen.
  destruct (mapUploadedFiles files b) as [new b']. simpl in *.
  rewrite length_app, Hlen. reflexivity.
Qed.

Lemma handleUserFile_cons f rest w :
  handleUserFile (f :: rest) w
  = (setUserImage w.1 (Some (uploadedAt w.2 0 f)), (makeUploadedFile f w.2).2).
Proof.
  destruct w as [s b]. unfold handleUserFile, uploadedAt. simpl.
  rewrite !Nat.add_0_r. reflexivity.
Qed.

(** X25. The picker hands a drop or a selection to its parent only when
    it holds at least one file, and then hands over all of them. So through
    the picker the item list grows by the number of files dropped, the
    reference photo becomes the first file of a drop however many were
    dropped, and an empty or absent file list changes nothing in the
    parent. A drop always clears the highlight; a selection leaves it. *)
Theorem picker_feeds_parent files d w :
  let dropItems := FileUpload.handleDrop handleItemFiles files (d, w) in
  let dropUser := FileUpload.handleDrop handleUserFile files (d, w) in
  dropItems.1 = false /\ dropUser.1 = false
  /\ (FileUpload.handleChange handleItemFiles files (d, w)).1 = d
  /\ FileUpload.handleChange handleItemFiles files (d, w) = (d, dropItems.2)
  /\ FileUpload.handleChange handleUserFile files (d, w) = (d, dropUser.2)
  /\ length (itemImages dropItems.2.1)
     = (length (itemImages w.1) + length (default [] files))%nat
  /\ userImage dropUser.2.1
     = match files with
       | Some (f :: _) => Some (uploadedAt w.2 0 f)
       | _ => userImage w.1
       end
  /\ (default [] files = [] -> dropItems.2 = w /\ dropUser.2 = w).
Proof.
  cbv zeta. unfold FileUpload.handleDrop, FileUpload.handleChange.
  destruct files as [[|f rest]|]; cbn [fst snd default length Nat.ltb Nat.leb].
  - repeat split. cbn. lia.
  - rewrite handleItemFiles_length, handleUserFile_cons. repeat split; discriminate.
  - repeat split. cbn. lia.
Qed.

(** X26. Edits chain on the held image: after an edit that yielded a
    non-empty image, a further edit with a new instruction sends exactly
    that image, declared as JPEG, followed by the new instruction, in a
    single request to the image model. *)
Theorem edit_chain_sends_previous_result ai ai' s img p :
  editGuardFails s = false ->
  editOutcome ai s = inr img ->
  img <> "" -> p <> "" ->
  let s1 := setEditPrompt (finalState (invoke handleEditImage ai s)) p in
  generatedImage s1 = Some img
  /\ requests (invoke handleEditImage ai' s1)
     = [generateContent "gemini-2.5-flash-image"
          [InlineDataPart (Some img) "image/jpeg"; TextPart p]
          (responseModalities [IMAGE])].
Proof.
  intros Hg Hi Himg Hp s1.
  assert (Hheld : generatedImage s1 = Some img).
  { subst s1. unfold invoke. rewrite (run_handleEditImage_accepted _ _ _ Hg).
    cbv zeta. rewrite Hi. reflexivity. }
  assert (Hprompt : editPrompt s1 = p) by reflexivity.
  split; [exact Hheld|].
  assert (Hg1 : editGuardFails s1 = false).
  { apply editGuardFails_false. split; [exists img; auto|congruence]. }
  unfold invoke. rewrite (run_handleEditImage_accepted _ _ _ Hg1). cbv zeta.
  rewrite Hheld, Hprompt. destruct (editOutcome ai' s1); reflexivity.
Qed.

Lemma edit_chain_sends_previous_result_witness :
  let s1 := setEditPrompt
              (finalState (invoke handleEditImage service_analysis_down editState))
              "make the background black and white" in
  generatedImage s1 = Some "SU1H"
  /\ requests (invoke handleEditImage service_down s1)
     = [generateContent "gemini-2.5-flash-image"
          [InlineDataPart (Some "SU1H") "image/jpeg";
           TextPart "make the background black and white"]
          (responseModalities [IMAGE])].
Proof.
  apply (edit_chain_sends_previous_result service_analysis_down service_down editState
           "SU1H" "make the background black and white");
    [reflexivity|reflexivity|discriminate|discriminate].
Defined.
